(** * CSV Splitter: the splitting pipeline of [App.tsx], embedded and verified

    The development follows [src/App.tsx]:
    - [JsString]: JavaScript strings as sequences of UTF-16 code units, the
      character classes of the two regular expressions of [sanitizeFilename],
      [String.prototype.trim], and [sanitizeFilename] itself;
    - [Js]: thrown values, the settlement of promises, and the tasks of the
      asynchronous handlers, which record every reading of the file;
    - [Csv]: rows as delivered by the CSV parser, the method call
      [firstRow.hasOwnProperty] and [findGroupingColumn], the encoding
      fallback, the parse-error gate, the grouping [reduce] over a
      plain JavaScript object and [Object.entries];
    - [App]: the component state and its handlers ([handleFileSelect],
      [processCsvFile], [downloadAllAsZip]);
    - [Spec]: the vocabulary of the specification (the four steps of the
      sanitizer, the inconclusive primary attempt, keys in order of first
      occurrence, dropped rows) and the inputs of the example runs.

    - [Runs]: more vocabulary and the collaborators of further example runs.

    The theorems come after the definitions, stage by stage: the sanitizer,
    the parsing stages, the handlers, the grouping; then trimming and group
    keys, the generated files, and whole runs of the handlers. *)

From Stdlib Require Import List NArith Bool Ascii String Lia Permutation Sorted.
From Stdlib Require Import DecimalString.
From Equations Require Import Equations.
Import ListNotations.

Set Implicit Arguments.

(* ===================================================================== *)
(** * JavaScript strings *)
(* ===================================================================== *)

Module JsString.

Local Open Scope N_scope.

(** A JavaScript string is a sequence of UTF-16 code units. *)
Definition code_unit := N.
Definition jsstring := list code_unit.

(** String literals of the source that are pure ASCII. *)
Definition lit (s : string) : jsstring :=
  List.map N_of_ascii (list_ascii_of_string s).

Definition eq_dec : forall a b : jsstring, {a = b} + {a <> b} :=
  list_eq_dec N.eq_dec.

Definition eqb (a b : jsstring) : bool :=
  if eq_dec a b then true else false.

(** [\s] of a JavaScript regular expression, which is also the set that
    [String.prototype.trim] strips: WhiteSpace (TAB, VT, FF, SP, NBSP,
    ZWNBSP and the Unicode space separators) and LineTerminator (LF, CR,
    LS, PS). *)
Definition is_whitespace (c : code_unit) : bool :=
  ((0x09 <=? c) && (c <=? 0x0D))
  || (c =? 0x20) || (c =? 0xA0) || (c =? 0x1680)
  || ((0x2000 <=? c) && (c <=? 0x200A))
  || (c =? 0x2028) || (c =? 0x2029) || (c =? 0x202F) || (c =? 0x205F)
  || (c =? 0x3000) || (c =? 0xFEFF).

Definition is_ascii_lower (c : code_unit) : bool := (0x61 <=? c) && (c <=? 0x7A).
Definition is_ascii_upper (c : code_unit) : bool := (0x41 <=? c) && (c <=? 0x5A).
Definition is_ascii_letter (c : code_unit) : bool := is_ascii_lower c || is_ascii_upper c.
Definition is_ascii_digit (c : code_unit) : bool := (0x30 <=? c) && (c <=? 0x39).
Definition hyphen : code_unit := 0x2D.
Definition underscore : code_unit := 0x5F.

(** The class [[a-z0-9\s-]] under the flag [i].  Without the flag [u] the
    case-insensitive comparison canonicalizes a code unit through
    [toUpperCase] and never maps a non-ASCII code unit to an ASCII one, so
    the flag adds exactly [A-Z] to the class. *)
Definition in_kept_class (c : code_unit) : bool :=
  is_ascii_letter c || is_ascii_digit c || is_whitespace c || (c =? hyphen).

(** [s.replace(/[cls]/g, repl)] for a one-character pattern: every matching
    code unit is replaced, the others are copied. *)
Definition replace_each (cls : code_unit -> bool) (repl : jsstring) (s : jsstring) : jsstring :=
  flat_map (fun c => if cls c then repl else [c]) s.

(** [s.replace(/[cls]+/g, repl)]: the scan copies code units outside the
    class; a match starts at the first code unit of the class, is extended
    greedily over the whole run, and is replaced once.  [in_match] tells
    whether the previous code unit belonged to the current match. *)
Fixpoint replace_runs_from (cls : code_unit -> bool) (repl : jsstring)
         (in_match : bool) (s : jsstring) : jsstring :=
  match s with
  | [] => []
  | c :: rest =>
      if cls c
      then (if in_match then [] else repl) ++ replace_runs_from cls repl true rest
      else c :: replace_runs_from cls repl false rest
  end.

Definition replace_runs (cls : code_unit -> bool) (repl : jsstring) (s : jsstring) : jsstring :=
  replace_runs_from cls repl false s.

(** The longest prefix made of code units of [cls] is skipped. *)
Fixpoint skip_while (cls : code_unit -> bool) (s : jsstring) : jsstring :=
  match s with
  | [] => []
  | c :: rest => if cls c then skip_while cls rest else s
  end.

(** [String.prototype.trimStart], [trimEnd], [trim]. *)
Definition trimStart (s : jsstring) : jsstring := skip_while is_whitespace s.

Definition trimEnd (s : jsstring) : jsstring := rev (trimStart (rev s)).

Definition trim (s : jsstring) : jsstring := trimEnd (trimStart s).

(** [App.tsx], lines 35-37:
    [name.replace(/[^a-z0-9\s-]/gi, '').replace(/\s+/g, '_').trim() + '.csv'] *)
Definition sanitizeFilename (name : jsstring) : jsstring :=
  trim (replace_runs is_whitespace (lit "_")
          (replace_each (fun c => negb (in_kept_class c)) (lit "") name))
  ++ lit ".csv".

Definition no_whitespace (s : jsstring) : Prop :=
  Forall (fun c => is_whitespace c = false) s.

(** [s.startsWith(p)] and [s.endsWith(p)], returning what is left of [s]. *)
Fixpoint strip_prefix (p s : jsstring) : option jsstring :=
  match p, s with
  | [], _ => Some s
  | a :: p', b :: s' => if a =? b then strip_prefix p' s' else None
  | _ :: _, [] => None
  end.

Definition strip_suffix (p s : jsstring) : option jsstring :=
  option_map (@rev code_unit) (strip_prefix (rev p) (rev s)).

Definition endsWith (s p : jsstring) : bool :=
  match strip_suffix p s with Some _ => true | None => false end.

End JsString.

(* ===================================================================== *)
(** * Exceptions, promises and the external collaborators *)
(* ===================================================================== *)

Module Js.

Import JsString.

(** What a [catch] clause receives: an instance of [Error] with its
    [message], or any other value (the event [FileReader] hands to
    [onerror], for one). *)
Inductive Thrown : Type :=
| ErrorObject (message : jsstring)
| OtherValue.

(** The completion of an expression, or the settlement of a promise. *)
Inductive Outcome (A : Type) : Type :=
| Return (a : A)
| Throw (e : Thrown).

Arguments Return {A} a.
Arguments Throw {A} e.

Inductive Encoding : Type := UTF_8 | ISO_8859_1.

(** The asynchronous code of [processCsvFile] awaits one promise after the
    other; a task is run against the list of encodings the file was read
    with so far and extends it. *)
Definition Task (A : Type) : Type := list Encoding -> list Encoding * Outcome A.

Definition ret {A} (a : A) : Task A := fun log => (log, Return a).

Definition throw {A} (e : Thrown) : Task A := fun log => (log, Throw e).

Definition bind {A B} (c : Task A) (k : A -> Task B) : Task B :=
  fun log =>
    match c log with
    | (log', Return a) => k a log'
    | (log', Throw e) => (log', Throw e)
    end.

(** [try { c } catch (e) { handler e }] *)
Definition try_catch {A} (c : Task A) (handler : Thrown -> Task A) : Task A :=
  fun log =>
    match c log with
    | (log', Return a) => (log', Return a)
    | (log', Throw e) => handler e log'
    end.

Definition lift {A} (o : Outcome A) : Task A := fun log => (log, o).

(** [if (cond) throw new Error(message)] *)
Definition throw_if (cond : bool) (message : jsstring) : Task unit :=
  if cond then throw (ErrorObject message) else ret tt.

End Js.

Declare Scope task_scope.
Delimit Scope task_scope with task.
Notation "x <- c1 ;; c2" := (Js.bind c1 (fun x => c2))
  (at level 61, c1 at next level, right associativity) : task_scope.
Notation "c1 ;; c2" := (Js.bind c1 (fun _ => c2))
  (at level 61, right associativity) : task_scope.

(* ===================================================================== *)
(** * Rows, parse results and the splitting pipeline *)
(* ===================================================================== *)

Module Csv.

Import JsString Js.

(** A row object of the parser in header mode: a plain object with one own
    property for each column, header to cell, in column order. *)
Definition Row : Type := list (jsstring * jsstring).

Fixpoint get (row : Row) (name : jsstring) : option jsstring :=
  match row with
  | [] => None
  | (k, v) :: rest => if eqb k name then Some v else get rest name
  end.

(** [Object.prototype.hasOwnProperty] applied to a row: [name] is one of
    its own keys. *)
Definition owns (row : Row) (name : jsstring) : bool :=
  match get row name with Some _ => true | None => false end.

(** An entry of [results.errors]: the fields the source reads.  [row] is
    absent on errors that belong to no row. *)
Record ParseError : Type := {
  error_row : option N;
  error_message : jsstring
}.

Record ParseResult : Type := {
  data : list Row;
  errors : list ParseError
}.

Record File : Type := {
  file_name : jsstring;
  file_type : jsstring;
  file_bytes : list N
}.

Record GeneratedFile : Type := {
  filename : jsstring;
  content : jsstring
}.

(** The libraries and browser interfaces the component calls. *)
Class Collaborators : Type := {
  (** [reader.readAsText(file, encoding)]: [onload] with a string result
      ([Some]) or with another result ([None]), or [onerror]. *)
  FileReader_readAsText : File -> Encoding -> Outcome (option jsstring);
  (** [Papa.parse(text, { header: true, skipEmptyLines: true, ... })]:
      [complete(res)] or [error(err)]. *)
  Papa_parse : jsstring -> Outcome ParseResult;
  (** [Papa.unparse(rows)] *)
  Papa_unparse : list Row -> jsstring;
  (** The body of the [try] of [downloadAllAsZip]: the archive is built from
      the entries and handed to the browser as a download. *)
  JSZip_generate_and_save : list GeneratedFile -> Outcome unit;
  (** [String.prototype.toLowerCase] *)
  toLowerCase : jsstring -> jsstring;
  (** The engine's wording of the [TypeError] for a call of something that
      is not a function. *)
  not_a_function_message : jsstring;
  (** The same for the call [firstRow.hasOwnProperty(name)] of line 76. *)
  hasOwnProperty_not_a_function_message : jsstring
}.

(** Line 71. *)
Definition possibleColumnNames : list jsstring :=
  [lit "Nome da operadora:"; lit "Nome do restaurante:"; lit "Nome da empresa:"].

Definition nonempty {A} (l : list A) : bool :=
  match l with [] => false | _ :: _ => true end.

Definition is_some {A} (o : option A) : bool :=
  match o with Some _ => true | None => false end.

(** A string is truthy when it is not empty. *)
Definition truthy (s : jsstring) : bool := nonempty s.

(** [Array.prototype.join] *)
Fixpoint join (sep : jsstring) (parts : list jsstring) : jsstring :=
  match parts with
  | [] => []
  | [part] => part
  | part :: rest => part ++ sep ++ join sep rest
  end.

(** What a template literal writes for [firstError.row]. *)
Definition ToString_row (r : option N) : jsstring :=
  match r with
  | Some n => lit (NilEmpty.string_of_uint (N.to_uint n))
  | None => lit "undefined"
  end.

(** Line 101. *)
Definition parseErrorMessage (firstError : ParseError) : jsstring :=
  lit "Error parsing CSV file on line " ++ ToString_row (error_row firstError)
  ++ lit ": " ++ error_message firstError ++ lit ". Please check the file format.".

(** Lines 108-109. *)
Definition expectedColumnsString : jsstring :=
  join (lit ", ") (List.map (fun name => lit "'" ++ name ++ lit "'") possibleColumnNames).

Definition missingColumnMessage : jsstring :=
  lit "CSV must contain one of the following columns: " ++ expectedColumnsString.

(** ** The accumulator of the [reduce]: a plain object *)

(** The own properties of [groupedByValue], each an array of rows, in the
    order of their creation. *)
Definition GroupsObject : Type := list (jsstring * list Row).

Fixpoint own (acc : GroupsObject) (key : jsstring) : option (list Row) :=
  match acc with
  | [] => None
  | (k, rows) :: rest => if eqb k key then Some rows else own rest key
  end.

(** The accumulator is created by the literal [{}]: what it does not own it
    inherits from [Object.prototype], whose properties are functions, and
    the prototype object itself under [__proto__]. *)
Definition Object_prototype_properties : list jsstring :=
  List.map lit
    ["constructor"; "hasOwnProperty"; "isPrototypeOf"; "propertyIsEnumerable";
     "toLocaleString"; "toString"; "valueOf"; "__proto__";
     "__defineGetter__"; "__defineSetter__"; "__lookupGetter__"; "__lookupSetter__"]%string.

Definition inherited (key : jsstring) : bool :=
  existsb (eqb key) Object_prototype_properties.

(** The value of [acc[key]]. *)
Inductive Property : Type :=
| OwnArray (rows : list Row)
| Inherited
| Undefined.

Definition lookup (acc : GroupsObject) (key : jsstring) : Property :=
  match own acc key with
  | Some rows => OwnArray rows
  | None => if inherited key then Inherited else Undefined
  end.

(** [acc[key] = []] for a key that [acc] does not own. *)
Definition create (acc : GroupsObject) (key : jsstring) : GroupsObject :=
  acc ++ [(key, [])].

(** [acc[key].push(row)] for a key that [acc] owns. *)
Fixpoint push (acc : GroupsObject) (key : jsstring) (row : Row) : GroupsObject :=
  match acc with
  | [] => []
  | (k, rows) :: rest =>
      if eqb k key then (k, rows ++ [row]) :: rest else (k, rows) :: push rest key row
  end.

(** [row[groupingColumnName]?.trim()] when it is truthy. *)
Definition groupNameOf (groupingColumnName : jsstring) (row : Row) : option jsstring :=
  match get row groupingColumnName with
  | Some value => if truthy (trim value) then Some (trim value) else None
  | None => None
  end.

(** [Array.prototype.reduce] with a callback that may throw. *)
Fixpoint reduce {A B} (f : B -> A -> Outcome B) (l : list A) (acc : B) : Outcome B :=
  match l with
  | [] => Return acc
  | x :: rest =>
      match f acc x with
      | Return acc' => reduce f rest acc'
      | Throw e => Throw e
      end
  end.

(** ** [Object.entries]: the order of the own property keys *)

Definition digit_value (c : code_unit) : N := (c - 0x30)%N.

(** The number a string of decimal digits writes. *)
Definition decimal_value (key : jsstring) : N :=
  fold_left (fun n c => (10 * n + digit_value c)%N) key 0%N.

(** An array index is the canonical decimal writing of an integer from 0 to
    2^32 - 2: digits only, without a leading zero unless it is "0". *)
Definition array_index (key : jsstring) : option N :=
  match key with
  | [] => None
  | c :: rest =>
      if forallb is_ascii_digit key
         && (negb (N.eqb c 0x30) || negb (nonempty rest))
         && (decimal_value key <=? 4294967294)%N
      then Some (decimal_value key)
      else None
  end.

Fixpoint insert_by_index {A} (e : N * A) (l : list (N * A)) : list (N * A) :=
  match l with
  | [] => [e]
  | x :: rest => if (fst e <=? fst x)%N then e :: l else x :: insert_by_index e rest
  end.

Definition sort_by_index {A} (l : list (N * A)) : list (N * A) :=
  fold_right insert_by_index [] l.

Definition index_properties {A} (o : list (jsstring * A)) : list (N * (jsstring * A)) :=
  flat_map (fun kv => match array_index (fst kv) with
                      | Some i => [(i, kv)]
                      | None => []
                      end) o.

Definition string_properties {A} (o : list (jsstring * A)) : list (jsstring * A) :=
  filter (fun kv => negb (is_some (array_index (fst kv)))) o.

(** Own keys that are array indices come first, in ascending numeric order;
    the other string keys follow in the order of their creation. *)
Definition Object_entries {A} (o : list (jsstring * A)) : list (jsstring * A) :=
  List.map snd (sort_by_index (index_properties o)) ++ string_properties o.

Section Pipeline.

Context {ext : Collaborators}.

Local Open Scope task_scope.

(** Lines 50-66: how the promise of [parseWithEncoding] is settled. *)
Definition readAndParse (file : File) (encoding : Encoding) : Outcome ParseResult :=
  match FileReader_readAsText file encoding with
  | Return (Some text) => Papa_parse text
  | Return None => Throw (ErrorObject (lit "Could not read file content."))
  | Throw e => Throw e
  end.

(** Lines 49-67: one more reading of the file, with [encoding]. *)
Definition parseWithEncoding (file : File) (encoding : Encoding) : Task ParseResult :=
  fun log => (log ++ [encoding], readAndParse file encoding).

(** [firstRow.hasOwnProperty(name)], line 76.  The method is looked up on
    the row itself before its prototype: a row that owns a column named
    "hasOwnProperty" answers with that cell, a string, and the call of a
    string is a [TypeError]; any other row reaches
    [Object.prototype.hasOwnProperty]. *)
Definition hasOwnProperty (row : Row) (name : jsstring) : Outcome bool :=
  match get row (lit "hasOwnProperty") with
  | Some _ => Throw (ErrorObject hasOwnProperty_not_a_function_message)
  | None => Return (owns row name)
  end.

(** [Array.prototype.find] with a callback that may throw. *)
Fixpoint Array_find {A} (callback : A -> Outcome bool) (l : list A) : Outcome (option A) :=
  match l with
  | [] => Return None
  | x :: rest =>
      match callback x with
      | Return true => Return (Some x)
      | Return false => Array_find callback rest
      | Throw e => Throw e
      end
  end.

(** Lines 73-77. *)
Definition findGroupingColumn (data : list Row) : Outcome (option jsstring) :=
  match data with
  | [] => Return None
  | firstRow :: _ => Array_find (fun name => hasOwnProperty firstRow name) possibleColumnNames
  end.

(** Lines 80-89, the body of the inner [try]. *)
Definition primaryAttempt (sourceFile : File) : Task ParseResult :=
  results <- parseWithEncoding sourceFile UTF_8;;
  found <- lift (findGroupingColumn (data results));;
  let groupingColumnFound := is_some found in
  throw_if (negb groupingColumnFound && nonempty (data results))
           (lit "Grouping header not found with UTF-8, trying fallback encoding.");;
  throw_if (nonempty (errors results) && negb (nonempty (data results)))
           (lit "Parsing with UTF-8 failed, trying fallback encoding.");;
  ret results.

(** Lines 79-93. *)
Definition parseWithFallback (sourceFile : File) : Task ParseResult :=
  try_catch (primaryAttempt sourceFile)
            (fun _ => parseWithEncoding sourceFile ISO_8859_1).

(** Lines 96-103. *)
Definition checkErrors (results : ParseResult) : Task unit :=
  match errors results with
  | [] => ret tt
  | firstError :: _ =>
      if nonempty (data results)
      then ret tt
      else throw (ErrorObject (parseErrorMessage firstError))
  end.

(** Lines 105-110. *)
Definition resolveGroupingColumn (rows : list Row) : Task jsstring :=
  found <- lift (findGroupingColumn rows);;
  match found with
  | Some groupingColumnName =>
      if truthy groupingColumnName
      then ret groupingColumnName
      else throw (ErrorObject missingColumnMessage)
  | None => throw (ErrorObject missingColumnMessage)
  end.

(** Lines 112-120, the callback of the [reduce]. *)
Definition reducer (groupingColumnName : jsstring) (acc : GroupsObject) (row : Row)
  : Outcome GroupsObject :=
  match groupNameOf groupingColumnName row with
  | Some groupName =>
      let acc1 :=
        match lookup acc groupName with
        | Undefined => create acc groupName
        | _ => acc
        end in
      match lookup acc1 groupName with
      | OwnArray _ => Return (push acc1 groupName row)
      | _ => Throw (ErrorObject not_a_function_message)
      end
  | None => Return acc
  end.

(** Lines 112-121. *)
Definition groupRows (groupingColumnName : jsstring) (rows : list Row) : Outcome GroupsObject :=
  reduce (reducer groupingColumnName) rows [].

(** Lines 123-129. *)
Definition generateFiles (groupedByValue : GroupsObject) : list GeneratedFile :=
  List.map (fun entry =>
              {| filename := sanitizeFilename (fst entry);
                 content := Papa_unparse (snd entry) |})
           (Object_entries groupedByValue).

(** Lines 96-129: what is done with the chosen parse result. *)
Definition splitResults (results : ParseResult) : Task (list GeneratedFile) :=
  checkErrors results;;
  groupingColumnName <- resolveGroupingColumn (data results);;
  groupedByValue <- lift (groupRows groupingColumnName (data results));;
  ret (generateFiles groupedByValue).

(** Lines 70-129, the body of the outer [try] up to the list of files. *)
Definition splitFile (sourceFile : File) : Task (list GeneratedFile) :=
  results <- parseWithFallback sourceFile;;
  splitResults results.

End Pipeline.

(** ** Collaborators with scripted answers, for the example runs *)

(** The file is read as the text "utf-8" or "latin-1", after the encoding
    asked for, and the parser answers [primary] on the first text and
    [secondary] on the other; the archiver answers [zip]; lowering changes
    nothing. *)
Definition scripted (primary secondary : Outcome ParseResult) (zip : Outcome unit)
  : Collaborators :=
  {| FileReader_readAsText := fun _ encoding =>
       Return (Some (match encoding with
                     | UTF_8 => lit "utf-8"
                     | ISO_8859_1 => lit "latin-1"
                     end));
     Papa_parse := fun text => if eqb text (lit "utf-8") then primary else secondary;
     Papa_unparse := fun rows =>
       List.concat (List.map (fun row => join (lit ",") (List.map snd row) ++ [0x0A%N]) rows);
     JSZip_generate_and_save := fun _ => zip;
     toLowerCase := fun s => s;
     not_a_function_message := lit "acc[groupName].push is not a function";
     hasOwnProperty_not_a_function_message :=
       lit "firstRow.hasOwnProperty is not a function" |}.

Definition operadora : jsstring := lit "Nome da operadora:".

(** A row of a two-column file, [Nome da operadora:] and [Valor]. *)
Definition row_of (name value : string) : Row :=
  [(operadora, lit name); (lit "Valor", lit value)].

Definition parsed (rows : list Row) : Outcome ParseResult :=
  Return {| data := rows; errors := [] |}.

Definition planilha : File :=
  {| file_name := lit "planilha.csv"; file_type := lit "text/csv"; file_bytes := [] |}.

End Csv.

(* ===================================================================== *)
(** * The component: its state and its handlers *)
(* ===================================================================== *)

Module App.

Import JsString Js Csv.

(** Lines 12-16: the five state variables of the component. *)
Record AppState : Type := {
  sourceFile : option File;
  generatedFiles : list GeneratedFile;
  isLoading : bool;
  isZipping : bool;
  error : option jsstring
}.

Definition setSourceFile (v : option File) (st : AppState) : AppState :=
  {| sourceFile := v; generatedFiles := generatedFiles st;
     isLoading := isLoading st; isZipping := isZipping st; error := error st |}.

Definition setGeneratedFiles (v : list GeneratedFile) (st : AppState) : AppState :=
  {| sourceFile := sourceFile st; generatedFiles := v;
     isLoading := isLoading st; isZipping := isZipping st; error := error st |}.

Definition setIsLoading (v : bool) (st : AppState) : AppState :=
  {| sourceFile := sourceFile st; generatedFiles := generatedFiles st;
     isLoading := v; isZipping := isZipping st; error := error st |}.

Definition setIsZipping (v : bool) (st : AppState) : AppState :=
  {| sourceFile := sourceFile st; generatedFiles := generatedFiles st;
     isLoading := isLoading st; isZipping := v; error := error st |}.

Definition setError (v : option jsstring) (st : AppState) : AppState :=
  {| sourceFile := sourceFile st; generatedFiles := generatedFiles st;
     isLoading := isLoading st; isZipping := isZipping st; error := v |}.

Definition invalidFileTypeMessage : jsstring :=
  lit "Invalid file type. Please upload a CSV file.".

Definition zipFailureMessage : jsstring :=
  lit "Could not create the ZIP file. Please try downloading files individually.".

Section Handlers.

Context {ext : Collaborators}.

(** The test of line 19, negated: the file is taken as a CSV file. *)
Definition acceptedAsCsv (file : File) : bool :=
  negb (negb (eqb (file_type file) (lit "text/csv"))
        && negb (endsWith (toLowerCase (file_name file)) (lit ".csv"))).

(** Lines 18-27. *)
Definition handleFileSelect (file : File) (st : AppState) : AppState :=
  if negb (eqb (file_type file) (lit "text/csv"))
     && negb (endsWith (toLowerCase (file_name file)) (lit ".csv"))
  then setSourceFile None (setError (Some invalidFileTypeMessage) st)
  else setSourceFile (Some file) (setGeneratedFiles [] (setError None st)).

(** Lines 29-33. *)
Definition clearFile (st : AppState) : AppState :=
  setError None (setGeneratedFiles [] (setSourceFile None st)).

(** Line 133. *)
Definition errorMessageOf (err : Thrown) : jsstring :=
  match err with
  | ErrorObject message => message
  | OtherValue => lit "An unknown error occurred."
  end.

(** Lines 39-139: the state once the task has completed. *)
Definition processCsvFile (st : AppState) : AppState :=
  match sourceFile st with
  | None => setError (Some (lit "Please select a file to process.")) st
  | Some file =>
      let st1 := setGeneratedFiles [] (setError None (setIsLoading true st)) in
      let st2 :=
        match snd (splitFile file []) with
        | Return files => setGeneratedFiles files st1
        | Throw err => setError (Some (errorMessageOf err)) st1
        end in
      setIsLoading false st2
  end.

(** Lines 141-167: the state once the task has completed. *)
Definition downloadAllAsZip (st : AppState) : AppState :=
  match generatedFiles st with
  | [] => st
  | _ :: _ =>
      let st1 := setIsZipping true st in
      let st2 :=
        match JSZip_generate_and_save (generatedFiles st1) with
        | Return _ => st1
        | Throw _ => setError (Some zipFailureMessage) st1
        end in
      setIsZipping false st2
  end.

End Handlers.

End App.

(* ===================================================================== *)
(** * The sanitizer as the specification words it *)
(* ===================================================================== *)

Module Spec.

Import JsString.

(** Step 1: "Remove every character that is not an ASCII letter, digit,
    whitespace, or hyphen." *)
Definition remove_disallowed (s : jsstring) : jsstring :=
  filter (fun c => is_ascii_letter c || is_ascii_digit c || is_whitespace c
                   || N.eqb c hyphen) s.

(** Step 2: "Replace every run of one-or-more whitespace characters with a
    single underscore": at a whitespace character the whole run that
    starts there is consumed and one underscore is written. *)
Equations? collapse_whitespace (s : jsstring) : jsstring by wf (List.length s) lt :=
  collapse_whitespace [] := [];
  collapse_whitespace (c :: rest) with is_whitespace c := {
    | true := underscore :: collapse_whitespace (skip_while is_whitespace rest);
    | false := c :: collapse_whitespace rest }.
Proof.
  clear collapse_whitespace. induction rest as [|d rest IH]; simpl.
  - lia.
  - destruct (is_whitespace d); simpl in *; lia.
Qed.

(** Step 3: "Trim leading/trailing whitespace".  The trailing side is
    written as a right fold: a whitespace character is kept only when a
    character that stays follows it. *)
Definition strip_trailing (s : jsstring) : jsstring :=
  fold_right (fun c kept =>
                match kept with
                | [] => if is_whitespace c then [] else [c]
                | _ :: _ => c :: kept
                end) [] s.

Definition strip_ends (s : jsstring) : jsstring :=
  strip_trailing (skip_while is_whitespace s).

(** Steps 1 to 4 of section 4.4. *)
Definition sanitizeFilename_steps (groupKey : jsstring) : jsstring :=
  strip_ends (collapse_whitespace (remove_disallowed groupKey)) ++ lit ".csv".

(** [sanitizeFilename_base]: a file name "with .csv stripped". *)
Definition sanitizeFilename_base (filename : jsstring) : jsstring :=
  match strip_suffix (lit ".csv") filename with
  | Some base => base
  | None => filename
  end.

(** ** The encoding fallback *)

(** "None of the candidate grouping-column headers is present" in the
    first of the rows. *)
Definition no_candidate_header (rows : list Csv.Row) : Prop :=
  exists firstRow rest,
    rows = firstRow :: rest
    /\ Forall (fun name => Csv.owns firstRow name = false) Csv.possibleColumnNames.

(** Section 4.1, step 2: "if zero rows were produced, or if rows exist but
    none of the candidate grouping-column headers is present, treat the
    primary attempt as inconclusive". *)
Definition inconclusive_as_specified (results : Csv.ParseResult) : Prop :=
  Csv.data results = [] \/ no_candidate_header (Csv.data results).

(** What the two guards of lines 84 and 87 test. *)
Definition inconclusive (results : Csv.ParseResult) : Prop :=
  no_candidate_header (Csv.data results)
  \/ (Csv.data results = [] /\ Csv.errors results <> []).

(** A file of two columns that holds its header line only: the parser
    reports neither rows nor errors, whatever the encoding. *)
Definition header_only : Csv.Collaborators :=
  Csv.scripted (Csv.parsed []) (Csv.parsed []) (Js.Return tt).

(** A parse result without rows that carries one error. *)
Definition unterminated_quote : Csv.ParseResult :=
  {| Csv.data := [];
     Csv.errors := [ {| Csv.error_row := Some 0%N;
                        Csv.error_message := lit "Quoted field unterminated" |} ] |}.

Definition broken_file : Csv.Collaborators :=
  Csv.scripted (Js.Return unterminated_quote) (Js.Return unterminated_quote) (Js.Return tt).

(** ** The partition *)

(** The group names of the rows that have one, in row order. *)
Definition keys (columnName : jsstring) (rows : list Csv.Row) : list jsstring :=
  flat_map (fun row => match Csv.groupNameOf columnName row with
                       | Some k => [k]
                       | None => []
                       end) rows.

(** "Order of first occurrence of each key": a key is listed where it
    first occurs and removed from what follows. *)
Fixpoint first_occurrences (l : list jsstring) : list jsstring :=
  match l with
  | [] => []
  | k :: rest => k :: remove eq_dec k (first_occurrences rest)
  end.

Definition has_key (columnName k : jsstring) (row : Csv.Row) : bool :=
  match Csv.groupNameOf columnName row with
  | Some k' => eqb k k'
  | None => false
  end.

(** One group for each key, in the order of first occurrence, holding the
    rows of that key in row order. *)
Definition grouped (columnName : jsstring) (rows : list Csv.Row) : Csv.GroupsObject :=
  List.map (fun k => (k, filter (has_key columnName k) rows))
           (first_occurrences (keys columnName rows)).

(** The rows that are dropped: their trimmed value is empty or missing. *)
Definition dropped (columnName : jsstring) (rows : list Csv.Row) : list Csv.Row :=
  filter (fun row => negb (Csv.is_some (Csv.groupNameOf columnName row))) rows.

(** No row names a property that a plain object inherits. *)
Definition no_inherited_key (columnName : jsstring) (rows : list Csv.Row) : Prop :=
  Forall (fun row => forall k, Csv.groupNameOf columnName row = Some k ->
                               Csv.inherited k = false) rows.

Definition is_index {A} (entry : jsstring * A) : bool :=
  Csv.is_some (Csv.array_index (fst entry)).

(** The number an array-index key writes. *)
Definition index_value {A} (entry : jsstring * A) : N :=
  match Csv.array_index (fst entry) with
  | Some i => i
  | None => 0%N
  end.

(** Ascending order of the numbers that sort the array-index keys. *)
Definition by_fst {A} (a b : N * A) : Prop := (fst a <= fst b)%N.

(** Rows under "Nome da operadora:" whose keys are B, 7, B, blanks, 10. *)
Definition mixed_keys : list Csv.Row :=
  [Csv.row_of "B" "1"; Csv.row_of " 7 " "2"; Csv.row_of "B" "3";
   Csv.row_of "  " "4"; Csv.row_of "10" "5"].

(** The operator "B" first, the operator "7" second. *)
Definition b_then_7 : list Csv.Row := [Csv.row_of "B" "1"; Csv.row_of "7" "2"].

(** An operator called "constructor". *)
Definition constructor_rows : list Csv.Row :=
  [Csv.row_of "A" "1"; Csv.row_of "constructor" "2"].

Definition constructor_file : Csv.Collaborators :=
  Csv.scripted (Csv.parsed constructor_rows) (Csv.parsed constructor_rows) (Js.Return tt).

(** ** Example runs of the component *)

(** Scenario 1: the rows A, B, A under the header "Nome da operadora:";
    the archiver of this run fails. *)
Definition scenario_1 : list Csv.Row :=
  [Csv.row_of "A" "1"; Csv.row_of "B" "2"; Csv.row_of "A" "3"].

Definition failing_archiver : Csv.Collaborators :=
  Csv.scripted (Csv.parsed scenario_1) (Csv.parsed scenario_1) (Js.Throw Js.OtherValue).

Definition selected (file : Csv.File) : App.AppState :=
  {| App.sourceFile := Some file; App.generatedFiles := [];
     App.isLoading := false; App.isZipping := false; App.error := None |}.

(** A state with results and an error left from earlier actions. *)
Definition stale : App.AppState :=
  {| App.sourceFile := Some Csv.planilha;
     App.generatedFiles := [ {| Csv.filename := lit "A.csv"; Csv.content := lit "x" |} ];
     App.isLoading := false; App.isZipping := false;
     App.error := Some App.zipFailureMessage |}.

Definition notes_txt : Csv.File :=
  {| Csv.file_name := lit "notes.txt"; Csv.file_type := lit "text/plain";
     Csv.file_bytes := [] |}.

(** The group key of scenario 5, "Café & Cia!", with its e-acute as the
    single code unit U+00E9. *)
Definition cafe_e_cia : jsstring := lit "Caf" ++ [0xE9%N] ++ lit " & Cia!".

(** The characters a base may hold according to the claim about the
    sanitizer's output. *)
Definition base_char (c : code_unit) : bool :=
  is_ascii_letter c || is_ascii_digit c || N.eqb c underscore || N.eqb c hyphen.

End Spec.

(* ===================================================================== *)
(** * More vocabulary and more runs *)
(* ===================================================================== *)

Module Runs.

Import JsString.

Definition all_whitespace (s : jsstring) : Prop :=
  Forall (fun c => is_whitespace c = true) s.

(** The first of the rows owns a column named "hasOwnProperty", which hides
    the method that line 76 calls. *)
Definition shadows_hasOwnProperty (rows : list Csv.Row) : Prop :=
  exists firstRow rest,
    rows = firstRow :: rest /\ Csv.owns firstRow (lit "hasOwnProperty") = true.

(** The candidate, if any, that the first row owns, in the priority order. *)
Definition first_candidate (rows : list Csv.Row) : option jsstring :=
  match rows with
  | [] => None
  | firstRow :: _ => find (fun name => Csv.owns firstRow name) Csv.possibleColumnNames
  end.

(** A file with the columns "hasOwnProperty" and "Valor" and one record. *)
Definition shadowing_rows : list Csv.Row :=
  [[(lit "hasOwnProperty", lit "x"); (lit "Valor", lit "1")]].

Definition shadowing_file : Csv.Collaborators :=
  Csv.scripted (Csv.parsed shadowing_rows) (Csv.parsed shadowing_rows) (Js.Return tt).

(** The same with the grouping column added. *)
Definition shadowing_with_operadora : list Csv.Row :=
  [[(lit "hasOwnProperty", lit "x"); (Csv.operadora, lit "A")]].

(** A file the browser cannot read as text: the reader's result is never a
    string. *)
Definition unreadable : Csv.Collaborators :=
  {| Csv.FileReader_readAsText := fun _ _ => Js.Return None;
     Csv.Papa_parse := fun _ => Csv.parsed [];
     Csv.Papa_unparse := fun _ => [];
     Csv.JSZip_generate_and_save := fun _ => Js.Return tt;
     Csv.toLowerCase := fun s => s;
     Csv.not_a_function_message := lit "acc[groupName].push is not a function";
     Csv.hasOwnProperty_not_a_function_message :=
       lit "firstRow.hasOwnProperty is not a function" |}.

(** Rows whose header was misread: the colon of the grouping column came
    out as the replacement character. *)
Definition misread_rows : list Csv.Row :=
  [[(lit "Nome da operadora" ++ [0xFFFD%N], lit "A"); (lit "Valor", lit "1")]].

(** The UTF-8 reading gives the misread rows, the ISO-8859-1 reading the
    rows of scenario 1. *)
Definition rescued_by_latin1 : Csv.Collaborators :=
  Csv.scripted (Csv.parsed misread_rows) (Csv.parsed Spec.scenario_1) (Js.Return tt).

(** The operators "Pizza & Cia" and "Pizza Cia!". *)
Definition colliding_rows : list Csv.Row :=
  [Csv.row_of "Pizza & Cia" "1"; Csv.row_of "Pizza Cia!" "2"].

End Runs.

(* ===================================================================== *)
(** * Properties of the sanitizer *)
(* ===================================================================== *)

Section SanitizerFacts.

Import JsString Spec.

Local Open Scope N_scope.

Lemma replace_each_remove (keep : code_unit -> bool) (s : jsstring) :
  replace_each (fun c => negb (keep c)) [] s = filter keep s.
Proof.
  unfold replace_each.
  induction s as [|c s IH]; simpl; [reflexivity|].
  rewrite IH. destruct (keep c); reflexivity.
Qed.

Lemma underscore_not_whitespace : is_whitespace underscore = false.
Proof. reflexivity. Qed.

Lemma replace_runs_from_no_whitespace (b : bool) (s : jsstring) :
  no_whitespace (replace_runs_from is_whitespace (lit "_") b s).
Proof.
  revert b. induction s as [|c s IH]; intros b; simpl.
  - constructor.
  - destruct (is_whitespace c) eqn:Hc.
    + destruct b; simpl.
      * apply IH.
      * constructor; [reflexivity | apply IH].
    + constructor; [assumption | apply IH].
Qed.

Lemma replace_runs_from_id (b : bool) (s : jsstring) :
  no_whitespace s -> replace_runs_from is_whitespace (lit "_") b s = s.
Proof.
  intros H. revert b. induction H as [|c s Hc _ IH]; intros b; simpl.
  - reflexivity.
  - rewrite Hc, IH. reflexivity.
Qed.

Lemma skip_while_head (cls : code_unit -> bool) (c : code_unit) (s : jsstring) :
  cls c = false -> skip_while cls (c :: s) = c :: s.
Proof. intros H. simpl. rewrite H. reflexivity. Qed.

Lemma trimStart_no_whitespace (s : jsstring) : no_whitespace s -> trimStart s = s.
Proof.
  intros H. destruct H as [|c s Hc _]; [reflexivity|].
  apply skip_while_head, Hc.
Qed.

Lemma no_whitespace_rev (s : jsstring) : no_whitespace s -> no_whitespace (rev s).
Proof. apply Forall_rev. Qed.

Lemma trim_no_whitespace (s : jsstring) : no_whitespace s -> trim s = s.
Proof.
  intros H. unfold trim, trimEnd.
  rewrite (trimStart_no_whitespace H).
  rewrite (trimStart_no_whitespace (no_whitespace_rev H)).
  apply rev_involutive.
Qed.

(** The [trim] of the source never changes anything: after the second
    replacement no whitespace is left. *)
Lemma sanitizeFilename_unfold (name : jsstring) :
  sanitizeFilename name
  = replace_runs is_whitespace (lit "_") (filter in_kept_class name) ++ lit ".csv".
Proof.
  unfold sanitizeFilename. change (lit "") with (@nil code_unit).
  rewrite replace_each_remove, trim_no_whitespace; [reflexivity|].
  apply replace_runs_from_no_whitespace.
Qed.

Lemma strip_prefix_app (p s : jsstring) : strip_prefix p (p ++ s) = Some s.
Proof.
  induction p as [|a p IH]; simpl; [reflexivity|].
  rewrite N.eqb_refl. exact IH.
Qed.

Lemma strip_suffix_app (p s : jsstring) : strip_suffix p (s ++ p) = Some s.
Proof.
  unfold strip_suffix. rewrite rev_app_distr, strip_prefix_app. simpl.
  rewrite rev_involutive. reflexivity.
Qed.

Lemma sanitizeFilename_base_app (base : jsstring) :
  sanitizeFilename_base (base ++ lit ".csv") = base.
Proof. unfold sanitizeFilename_base. rewrite strip_suffix_app. reflexivity. Qed.

Lemma replace_runs_in_match (cls : code_unit -> bool) (repl s : jsstring) :
  replace_runs_from cls repl true s
  = replace_runs_from cls repl false (skip_while cls s).
Proof.
  induction s as [|c s IH]; simpl; [reflexivity|].
  destruct (cls c) eqn:Hc; simpl.
  - exact IH.
  - rewrite Hc. reflexivity.
Qed.

Lemma collapse_whitespace_replace_runs (s : jsstring) :
  collapse_whitespace s = replace_runs is_whitespace (lit "_") s.
Proof.
  unfold replace_runs.
  funelim (collapse_whitespace s); simpl.
  - reflexivity.
  - rewrite Heq. simpl. rewrite replace_runs_in_match. f_equal. exact H.
  - rewrite Heq. f_equal. exact H.
Qed.

Lemma strip_trailing_no_whitespace (s : jsstring) :
  no_whitespace s -> strip_trailing s = s.
Proof.
  unfold strip_trailing.
  induction 1 as [|c s Hc _ IH]; simpl; [reflexivity|].
  rewrite IH, Hc. destruct s; reflexivity.
Qed.

Lemma strip_ends_no_whitespace (s : jsstring) : no_whitespace s -> strip_ends s = s.
Proof.
  intros H. unfold strip_ends. fold (trimStart s).
  rewrite (trimStart_no_whitespace H). apply strip_trailing_no_whitespace, H.
Qed.

(** C3. [sanitizeFilename] returns, for every group key, what the four steps
    of the specification produce: the characters outside ASCII letters, ASCII
    digits, whitespace and hyphen are removed, every whitespace run becomes one
    underscore, the result is trimmed and ".csv" is appended.  Non-ASCII
    letters are among the removed characters: "Café & Cia!" gives
    "Caf_Cia.csv". *)
Theorem sanitizeFilename_follows_steps :
  (forall name : jsstring, sanitizeFilename name = sanitizeFilename_steps name)
  /\ sanitizeFilename cafe_e_cia = lit "Caf_Cia.csv".
Proof.
  split; [|reflexivity].
  intros name. rewrite sanitizeFilename_unfold. unfold sanitizeFilename_steps.
  rewrite collapse_whitespace_replace_runs.
  rewrite strip_ends_no_whitespace by apply replace_runs_from_no_whitespace.
  reflexivity.
Qed.

Lemma filter_kept_class (name : jsstring) :
  Forall (fun c => in_kept_class c = true) (filter in_kept_class name).
Proof. apply Forall_forall. intros c Hc. apply filter_In in Hc. apply Hc. Qed.

Lemma kept_not_whitespace_base_char (c : code_unit) :
  in_kept_class c = true -> is_whitespace c = false -> base_char c = true.
Proof.
  unfold in_kept_class, base_char. intros Hk Hw. rewrite Hw in Hk.
  destruct (is_ascii_letter c), (is_ascii_digit c), (c =? hyphen), (c =? underscore);
    simpl in *; congruence.
Qed.

Lemma replace_runs_from_base_chars (b : bool) (s : jsstring) :
  Forall (fun c => in_kept_class c = true) s ->
  Forall (fun c => base_char c = true) (replace_runs_from is_whitespace (lit "_") b s).
Proof.
  intros H. revert b. induction H as [|c s Hc _ IH]; intros b; simpl.
  - constructor.
  - destruct (is_whitespace c) eqn:Hw.
    + destruct b; simpl; [apply IH|]. constructor; [reflexivity | apply IH].
    + constructor; [apply kept_not_whitespace_base_char; assumption | apply IH].
Qed.

Lemma filter_none (keep : code_unit -> bool) (s : jsstring) :
  Forall (fun c => keep c = false) s -> filter keep s = [].
Proof.
  induction 1 as [|c s Hc _ IH]; simpl; [reflexivity|]. rewrite Hc. exact IH.
Qed.

(** C9. Every output of [sanitizeFilename] is its base followed by ".csv";
    the base holds no whitespace and only ASCII letters, ASCII digits,
    underscores and hyphens; a key without any ASCII letter, digit,
    whitespace or hyphen gives the bare name ".csv", whose base is empty. *)
Theorem sanitizeFilename_output_shape (name : jsstring) :
  sanitizeFilename name = sanitizeFilename_base (sanitizeFilename name) ++ lit ".csv"
  /\ no_whitespace (sanitizeFilename_base (sanitizeFilename name))
  /\ Forall (fun c => base_char c = true) (sanitizeFilename_base (sanitizeFilename name))
  /\ (Forall (fun c => in_kept_class c = false) name ->
      sanitizeFilename name = lit ".csv"
      /\ sanitizeFilename_base (sanitizeFilename name) = []).
Proof.
  rewrite sanitizeFilename_unfold, sanitizeFilename_base_app.
  repeat split.
  - apply replace_runs_from_no_whitespace.
  - apply replace_runs_from_base_chars, filter_kept_class.
  - rewrite (filter_none _ H). reflexivity.
  - rewrite (filter_none _ H). reflexivity.
Qed.

(** The shape theorem at the key "¿¡é!": nothing of it is kept. *)
Lemma sanitizeFilename_output_shape_witness :
  sanitizeFilename [0xBF; 0xA1; 0xE9; 0x21] = lit ".csv"
  /\ sanitizeFilename_base (sanitizeFilename [0xBF; 0xA1; 0xE9; 0x21]) = [].
Proof.
  apply (sanitizeFilename_output_shape [0xBF; 0xA1; 0xE9; 0x21]).
  repeat constructor.
Defined.

Lemma sanitizeFilename_no_whitespace (s : jsstring) :
  no_whitespace s -> sanitizeFilename s = filter in_kept_class s ++ lit ".csv".
Proof.
  intros H. rewrite sanitizeFilename_unfold. unfold replace_runs.
  rewrite replace_runs_from_id; [reflexivity|].
  apply Forall_forall. intros c Hc. apply filter_In in Hc.
  exact (proj1 (Forall_forall _ _) H c (proj1 Hc)).
Qed.

Lemma filter_filter_same (keep : code_unit -> bool) (s : jsstring) :
  filter keep (filter keep s) = filter keep s.
Proof.
  induction s as [|c s IH]; simpl; [reflexivity|].
  destruct (keep c) eqn:Hc; simpl; [rewrite Hc, IH|]; auto.
Qed.

(** The first whitespace run of a string leaves an underscore. *)
Lemma replace_runs_has_underscore (s : jsstring) :
  Exists (fun c => is_whitespace c = true) s ->
  In underscore (replace_runs is_whitespace (lit "_") s).
Proof.
  unfold replace_runs.
  induction s as [|c s IH]; intros H; [inversion H|]. simpl.
  destruct (is_whitespace c) eqn:Hc.
  - left. reflexivity.
  - right. apply IH. inversion H; subst; [congruence | assumption].
Qed.

Lemma whitespace_or_not (s : jsstring) :
  no_whitespace s \/ Exists (fun c => is_whitespace c = true) s.
Proof.
  induction s as [|c s [IH|IH]].
  - left. constructor.
  - destruct (is_whitespace c) eqn:Hc.
    + right. left. exact Hc.
    + left. constructor; assumption.
  - right. right. exact IH.
Qed.

(** The second application of the sanitizer writes no underscore. *)
Lemma sanitizeFilename_of_base_no_underscore (name : jsstring) :
  ~ In underscore (sanitizeFilename (sanitizeFilename_base (sanitizeFilename name))).
Proof.
  rewrite (sanitizeFilename_unfold name), sanitizeFilename_base_app.
  rewrite sanitizeFilename_no_whitespace by apply replace_runs_from_no_whitespace.
  intros H. apply in_app_or in H. destruct H as [H|H].
  - apply filter_In in H. destruct H as [_ H]. discriminate H.
  - simpl in H. repeat (destruct H as [H|H]; [discriminate H|]). exact H.
Qed.

(** C4, as stated, fails: the underscore that stands for the blank of "a b"
    is not in the sanitizer's own character class, so sanitizing the base
    "a_b" gives "ab.csv", not "a_b.csv". *)
Lemma sanitizeFilename_not_idempotent :
  sanitizeFilename (sanitizeFilename_base (sanitizeFilename (lit "a b"))) = lit "ab.csv"
  /\ sanitizeFilename (lit "a b") = lit "a_b.csv"
  /\ sanitizeFilename (sanitizeFilename_base (sanitizeFilename (lit "a b")))
     <> sanitizeFilename (lit "a b").
Proof. repeat split. discriminate. Qed.

(** C4, amended. [sanitizeFilename] applied to the base of
    [sanitizeFilename x] gives [sanitizeFilename x] again exactly when [x]
    holds no whitespace character. *)
Theorem sanitizeFilename_idempotent_iff (x : jsstring) :
  sanitizeFilename (sanitizeFilename_base (sanitizeFilename x)) = sanitizeFilename x
  <-> no_whitespace x.
Proof.
  split.
  - intros Heq. destruct (whitespace_or_not x) as [H|H]; [exact H|].
    exfalso. apply (sanitizeFilename_of_base_no_underscore x). rewrite Heq.
    rewrite sanitizeFilename_unfold. apply in_or_app. left.
    apply replace_runs_has_underscore.
    apply Exists_exists in H. destruct H as [c [Hin Hc]].
    apply Exists_exists. exists c. split; [|exact Hc].
    apply filter_In. split; [exact Hin|].
    unfold in_kept_class. rewrite Hc. apply orb_true_iff. left.
    apply orb_true_iff. right. reflexivity.
  - intros H. rewrite (sanitizeFilename_no_whitespace H), sanitizeFilename_base_app.
    rewrite sanitizeFilename_no_whitespace.
    + rewrite filter_filter_same. reflexivity.
    + apply Forall_forall. intros c Hc. apply filter_In in Hc.
      exact (proj1 (Forall_forall _ _) H c (proj1 Hc)).
Qed.

(** The amended idempotence at "Café&Cia!", a key without blanks. *)
Lemma sanitizeFilename_idempotent_witness :
  sanitizeFilename
    (sanitizeFilename_base (sanitizeFilename (lit "Caf" ++ [0xE9] ++ lit "&Cia!")))
  = sanitizeFilename (lit "Caf" ++ [0xE9] ++ lit "&Cia!").
Proof.
  apply (proj2 (sanitizeFilename_idempotent_iff (lit "Caf" ++ [0xE9] ++ lit "&Cia!"))).
  repeat constructor.
Defined.

End SanitizerFacts.

(* ===================================================================== *)
(** * Properties of the parsing stages *)
(* ===================================================================== *)

Section ParsingFacts.

Import JsString Js Csv App Spec Runs.

Context {ext : Collaborators}.

Lemma eqb_eq (a b : jsstring) : eqb a b = true <-> a = b.
Proof. unfold eqb. destruct (eq_dec a b); split; congruence. Qed.

Lemma eqb_neq (a b : jsstring) : eqb a b = false <-> a <> b.
Proof. unfold eqb. destruct (eq_dec a b); split; congruence. Qed.

Lemma eqb_refl (a : jsstring) : eqb a a = true.
Proof. apply eqb_eq. reflexivity. Qed.

Lemma find_first_match {A} (f : A -> bool) (l : list A) (x : A) :
  find f l = Some x <->
  exists before after,
    l = before ++ x :: after /\ f x = true /\ Forall (fun y => f y = false) before.
Proof.
  induction l as [|a l IH]; simpl.
  - split; [discriminate|]. intros (before & after & H & _). destruct before; discriminate.
  - destruct (f a) eqn:Ha.
    + split.
      * intros [= <-]. exists [], l. repeat split; [assumption | constructor].
      * intros (before & after & H & Hx & Hb). destruct before as [|b before]; simpl in H.
        -- congruence.
        -- injection H as <- _. inversion Hb; congruence.
    + rewrite IH. split.
      * intros (before & after & -> & Hx & Hb). exists (a :: before), after.
        repeat split; [assumption | constructor; assumption].
      * intros (before & after & H & Hx & Hb). destruct before as [|b before]; simpl in H.
        -- injection H as -> _. congruence.
        -- injection H as _ ->. exists before, after. inversion Hb; repeat split; assumption.
Qed.

Lemma find_no_match {A} (f : A -> bool) (l : list A) :
  find f l = None <-> Forall (fun y => f y = false) l.
Proof.
  induction l as [|a l IH]; simpl.
  - split; constructor.
  - destruct (f a) eqn:Ha.
    + split; [discriminate|]. inversion 1; congruence.
    + rewrite IH. split; [constructor; assumption | inversion 1; assumption].
Qed.

Lemma get_some_iff (row : Row) (name : jsstring) :
  owns row name = true <-> In name (List.map fst row).
Proof.
  unfold owns. induction row as [|[k v] row IH]; simpl.
  - split; [discriminate | contradiction].
  - destruct (eqb k name) eqn:Hk.
    + apply eqb_eq in Hk. split; auto.
    + apply eqb_neq in Hk. rewrite IH. split; [auto | intros [H|H]; [contradiction | assumption]].
Qed.

Lemma possibleColumnNames_truthy (name : jsstring) :
  In name possibleColumnNames -> truthy name = true.
Proof.
  simpl. intros H. repeat (destruct H as [<-|H]; [reflexivity|]). contradiction.
Qed.

(** ** The call of [hasOwnProperty] on the first row *)

Lemma shadows_or_not (rows : list Row) :
  shadows_hasOwnProperty rows \/ ~ shadows_hasOwnProperty rows.
Proof.
  destruct rows as [|firstRow rest].
  - right. intros (r & t & E & _). discriminate E.
  - destruct (owns firstRow (lit "hasOwnProperty")) eqn:E.
    + left. exists firstRow, rest. split; [reflexivity | exact E].
    + right. intros (r & t & [= <- <-] & H). congruence.
Qed.

Lemma Array_find_plain (firstRow : Row) (names : list jsstring) :
  owns firstRow (lit "hasOwnProperty") = false ->
  Array_find (fun name => hasOwnProperty firstRow name) names
  = Return (find (fun name => owns firstRow name) names).
Proof.
  intros H. unfold hasOwnProperty. unfold owns in H.
  destruct (get firstRow (lit "hasOwnProperty")); [discriminate|].
  induction names as [|name names IH]; simpl; [reflexivity|].
  destruct (owns firstRow name); [reflexivity | exact IH].
Qed.

(** A first row that does not hide the method: the candidates are tried in
    their order against its own keys. *)
Lemma findGroupingColumn_plain (rows : list Row) :
  ~ shadows_hasOwnProperty rows -> findGroupingColumn rows = Return (first_candidate rows).
Proof.
  destruct rows as [|firstRow rest]; intros H; [reflexivity|].
  unfold findGroupingColumn, first_candidate. apply Array_find_plain.
  destruct (owns firstRow (lit "hasOwnProperty")) eqn:E; [|reflexivity].
  exfalso. apply H. exists firstRow, rest. split; [reflexivity | exact E].
Qed.

(** A first row that hides the method: the first call throws. *)
Lemma findGroupingColumn_shadowed (rows : list Row) :
  shadows_hasOwnProperty rows ->
  findGroupingColumn rows = Throw (ErrorObject hasOwnProperty_not_a_function_message).
Proof.
  intros (firstRow & rest & -> & H). unfold findGroupingColumn. simpl.
  unfold hasOwnProperty. unfold owns in H.
  destruct (get firstRow (lit "hasOwnProperty")); [reflexivity | discriminate].
Qed.

Lemma first_candidate_none_iff (rows : list Row) :
  first_candidate rows = None <-> rows = [] \/ no_candidate_header rows.
Proof.
  destruct rows as [|firstRow rest].
  - split; [left; reflexivity | reflexivity].
  - unfold first_candidate. rewrite find_no_match. split.
    + intros H. right. exists firstRow, rest. split; [reflexivity | exact H].
    + intros [H|(r & t & [= <- <-] & H)]; [discriminate | exact H].
Qed.

Lemma findGroupingColumn_truthy (rows : list Row) (name : jsstring) :
  findGroupingColumn rows = Return (Some name) -> truthy name = true.
Proof.
  intros H. destruct (shadows_or_not rows) as [Hs|Hs].
  - rewrite (findGroupingColumn_shadowed Hs) in H. discriminate H.
  - rewrite (findGroupingColumn_plain Hs) in H. injection H as H.
    destruct rows as [|firstRow rest]; [discriminate|].
    unfold first_candidate in H. apply find_some in H.
    apply possibleColumnNames_truthy, H.
Qed.

Lemma resolveGroupingColumn_found (rows : list Row) (name : jsstring) (log : list Encoding) :
  findGroupingColumn rows = Return (Some name) ->
  resolveGroupingColumn rows log = (log, Return name).
Proof.
  intros H. unfold resolveGroupingColumn, bind, lift.
  rewrite H, (findGroupingColumn_truthy _ H). reflexivity.
Qed.

Lemma resolveGroupingColumn_missing (rows : list Row) (log : list Encoding) :
  findGroupingColumn rows = Return None ->
  resolveGroupingColumn rows log = (log, Throw (ErrorObject missingColumnMessage)).
Proof. intros H. unfold resolveGroupingColumn, bind, lift. rewrite H. reflexivity. Qed.

Lemma resolveGroupingColumn_thrown (rows : list Row) (e : Thrown) (log : list Encoding) :
  findGroupingColumn rows = Throw e ->
  resolveGroupingColumn rows log = (log, Throw e).
Proof. intros H. unfold resolveGroupingColumn, bind, lift. rewrite H. reflexivity. Qed.

(** The stages after the parse read no file: they leave the list of
    readings as it is. *)
Lemma splitResults_log (results : ParseResult) (log : list Encoding) :
  splitResults results log = (log, snd (splitResults results [])).
Proof.
  assert (H : forall l, (groupingColumnName <- resolveGroupingColumn (data results);;
                         groupedByValue <- lift (groupRows groupingColumnName (data results));;
                         ret (generateFiles groupedByValue))%task l
                        = (l, snd ((groupingColumnName <- resolveGroupingColumn (data results);;
                                    groupedByValue <- lift (groupRows groupingColumnName
                                                              (data results));;
                                    ret (generateFiles groupedByValue))%task []))).
  { intros l. unfold bind at 1 3.
    destruct (findGroupingColumn (data results)) as [[name|]|e] eqn:Hf.
    - rewrite !resolveGroupingColumn_found with (name := name) by exact Hf.
      unfold bind, lift, ret. destruct (groupRows name (data results)); reflexivity.
    - rewrite !resolveGroupingColumn_missing by exact Hf. reflexivity.
    - rewrite !resolveGroupingColumn_thrown with (e := e) by exact Hf. reflexivity. }
  unfold splitResults. unfold bind at 1 4. unfold checkErrors, ret, throw.
  destruct (errors results) as [|firstError rest].
  - apply H.
  - destruct (nonempty (data results)); [apply H | reflexivity].
Qed.

Lemma splitFile_chosen (file : File) (results : ParseResult) :
  snd (parseWithFallback file []) = Return results ->
  snd (splitFile file []) = snd (splitResults results []).
Proof.
  intros H. unfold splitFile, bind.
  destruct (parseWithFallback file []) as [log o]. simpl in H. subst o.
  rewrite splitResults_log. reflexivity.
Qed.

(** The state a failed run leaves. *)
Lemma processCsvFile_failure (st : AppState) (file : File) (message : jsstring) :
  sourceFile st = Some file ->
  snd (splitFile file []) = Throw (ErrorObject message) ->
  error (processCsvFile st) = Some message
  /\ generatedFiles (processCsvFile st) = []
  /\ isLoading (processCsvFile st) = false.
Proof.
  intros Hf Hs. unfold processCsvFile. rewrite Hf, Hs. repeat split.
Qed.

Lemma header_guard_iff (results : ParseResult) :
  negb (is_some (first_candidate (data results))) && nonempty (data results) = true
  <-> no_candidate_header (data results).
Proof.
  rewrite andb_true_iff, negb_true_iff. split.
  - intros [Hf Hn]. destruct (first_candidate (data results)) eqn:E; [discriminate|].
    apply first_candidate_none_iff in E. destruct E as [E|E]; [|exact E].
    rewrite E in Hn. discriminate.
  - intros H. assert (E : first_candidate (data results) = None)
      by (apply first_candidate_none_iff; right; exact H).
    rewrite E. destruct H as (r & t & -> & _). split; reflexivity.
Qed.

Lemma errors_guard_iff (results : ParseResult) :
  nonempty (errors results) && negb (nonempty (data results)) = true
  <-> data results = [] /\ errors results <> [].
Proof.
  rewrite andb_true_iff, negb_true_iff.
  destruct (errors results), (data results); simpl; split; intros [H1 H2];
    try discriminate; try congruence; split; congruence.
Qed.

(** The primary attempt once its result is known and its first row does not
    hide [hasOwnProperty]. *)
Lemma parseWithFallback_plain (file : File) (results : ParseResult) :
  readAndParse file UTF_8 = Return results ->
  ~ shadows_hasOwnProperty (data results) ->
  parseWithFallback file []
  = if (negb (is_some (first_candidate (data results))) && nonempty (data results))
       || (nonempty (errors results) && negb (nonempty (data results)))
    then ([UTF_8; ISO_8859_1], readAndParse file ISO_8859_1)
    else ([UTF_8], Return results).
Proof.
  intros Hp Hs.
  unfold parseWithFallback, try_catch, primaryAttempt, bind, parseWithEncoding, lift.
  simpl. rewrite Hp, (findGroupingColumn_plain Hs). unfold throw_if.
  destruct (negb (is_some (first_candidate (data results))) && nonempty (data results));
    [reflexivity|].
  simpl. destruct (nonempty (errors results) && negb (nonempty (data results)));
    reflexivity.
Qed.

(** C1, amended. Taken over files whose UTF-8 rows do not hide
    [hasOwnProperty] in their first row: the file is first read as UTF-8.
    The primary attempt is inconclusive exactly when rows exist and the
    first row has none of the three candidate headers, or when no row was
    produced and the parser reported at least one error; zero rows without
    any error are conclusive.  When the primary attempt is conclusive it is
    the only reading and its result is used; when it is inconclusive or was
    rejected the file is read exactly once more, as ISO-8859-1, and whatever
    that reading gives is the result. *)
Theorem parseWithFallback_attempts (file : File) :
  (forall results,
      readAndParse file UTF_8 = Return results ->
      ~ shadows_hasOwnProperty (data results)) ->
  (exists results,
      readAndParse file UTF_8 = Return results
      /\ ~ inconclusive results
      /\ parseWithFallback file [] = ([UTF_8], Return results))
  \/ (((exists e, readAndParse file UTF_8 = Throw e)
       \/ (exists results, readAndParse file UTF_8 = Return results /\ inconclusive results))
      /\ parseWithFallback file [] = ([UTF_8; ISO_8859_1], readAndParse file ISO_8859_1)).
Proof.
  intros Hplain. destruct (readAndParse file UTF_8) as [results|e] eqn:Hp.
  - rewrite (parseWithFallback_plain _ Hp (Hplain results eq_refl)).
    destruct (negb (is_some (first_candidate (data results))) && nonempty (data results))
      eqn:G1; simpl.
    + right. split; [|reflexivity]. right. exists results. split; [reflexivity|].
      left. apply header_guard_iff, G1.
    + destruct (nonempty (errors results) && negb (nonempty (data results))) eqn:G2.
      * right. split; [|reflexivity]. right. exists results. split; [reflexivity|].
        right. apply errors_guard_iff, G2.
      * left. exists results. repeat split.
        intros [H|H].
        -- apply header_guard_iff in H. congruence.
        -- apply errors_guard_iff in H. congruence.
  - right. split; [left; exists e; reflexivity|].
    unfold parseWithFallback, try_catch, primaryAttempt, bind, parseWithEncoding.
    simpl. rewrite Hp. reflexivity.
Qed.

(** X16. [findGroupingColumn] in full.  The candidates are the fixed list of
    three names and only the first row is looked at.  It returns a name
    exactly when the first row does not hide [hasOwnProperty] and the name
    is the first candidate among its own keys; it returns nothing exactly
    when there is no row, or the first row does not hide the method and owns
    no candidate; it throws exactly when the first row owns a column named
    "hasOwnProperty".  The resolution then returns the name found, fails
    with the message that names the three candidates, or passes the throw
    on; once the error gate is passed, the message of the resolution is the
    error of the run. *)
Theorem findGroupingColumn_in_full :
  possibleColumnNames
  = [lit "Nome da operadora:"; lit "Nome do restaurante:"; lit "Nome da empresa:"]
  /\ (forall row name, owns row name = true <-> In name (List.map fst row))
  /\ (forall firstRow rest,
        findGroupingColumn (firstRow :: rest) = findGroupingColumn [firstRow])
  /\ (forall rows name,
        findGroupingColumn rows = Return (Some name) <->
        exists firstRow rest before after,
          rows = firstRow :: rest
          /\ owns firstRow (lit "hasOwnProperty") = false
          /\ possibleColumnNames = before ++ name :: after
          /\ owns firstRow name = true
          /\ Forall (fun earlier => owns firstRow earlier = false) before)
  /\ (forall rows,
        findGroupingColumn rows = Return None <->
        rows = [] \/ (no_candidate_header rows /\ ~ shadows_hasOwnProperty rows))
  /\ (forall rows,
        (exists e, findGroupingColumn rows = Throw e) <-> shadows_hasOwnProperty rows)
  /\ (forall rows name log,
        findGroupingColumn rows = Return (Some name) ->
        resolveGroupingColumn rows log = (log, Return name))
  /\ (forall rows log,
        findGroupingColumn rows = Return None ->
        resolveGroupingColumn rows log
        = (log, Throw (ErrorObject (lit "CSV must contain one of the following columns: 'Nome da operadora:', 'Nome do restaurante:', 'Nome da empresa:'"))))
  /\ (forall rows e log,
        findGroupingColumn rows = Throw e ->
        resolveGroupingColumn rows log = (log, Throw e))
  /\ (forall st file results,
        sourceFile st = Some file ->
        snd (parseWithFallback file []) = Return results ->
        errors results = [] \/ data results <> [] ->
        findGroupingColumn (data results) = Return None ->
        error (processCsvFile st)
        = Some (lit "CSV must contain one of the following columns: 'Nome da operadora:', 'Nome do restaurante:', 'Nome da empresa:'")
        /\ generatedFiles (processCsvFile st) = []
        /\ isLoading (processCsvFile st) = false).
Proof.
  split; [reflexivity|].
  split; [exact get_some_iff|].
  split; [reflexivity|].
  split.
  { intros rows name. destruct (shadows_or_not rows) as [Hs|Hs].
    - rewrite (findGroupingColumn_shadowed Hs). split; [discriminate|].
      intros (r & t & _ & _ & -> & Hn & _). destruct Hs as (r' & t' & [= <- <-] & Ho).
      congruence.
    - rewrite (findGroupingColumn_plain Hs). destruct rows as [|firstRow rest].
      + split; [discriminate|]. intros (r & t & _ & _ & H & _). discriminate.
      + assert (Ho : owns firstRow (lit "hasOwnProperty") = false).
        { destruct (owns firstRow (lit "hasOwnProperty")) eqn:E; [|reflexivity].
          exfalso. apply Hs. exists firstRow, rest. split; [reflexivity | exact E]. }
        unfold first_candidate. split.
        * intros H0.
          assert (H : find (fun n => owns firstRow n) possibleColumnNames = Some name)
            by congruence.
          apply find_first_match in H.
          destruct H as (before & after & H1 & H2 & H3).
          exists firstRow, rest, before, after. auto.
        * intros (r & t & before & after & [= <- <-] & _ & H1 & H2 & H3). f_equal.
          apply find_first_match. exists before, after. auto. }
  split.
  { intros rows. destruct (shadows_or_not rows) as [Hs|Hs].
    - rewrite (findGroupingColumn_shadowed Hs). split; [discriminate|].
      intros [->|[_ Hn]]; [|contradiction]. destruct Hs as (r & t & E & _). discriminate E.
    - rewrite (findGroupingColumn_plain Hs). split.
      + intros [= H]. apply first_candidate_none_iff in H.
        destruct H as [H|H]; [left; exact H | right; split; assumption].
      + intros H. f_equal. apply first_candidate_none_iff.
        destruct H as [H|[H _]]; [left | right]; exact H. }
  split.
  { intros rows. split.
    - intros [e He]. destruct (shadows_or_not rows) as [Hs|Hs]; [exact Hs|].
      rewrite (findGroupingColumn_plain Hs) in He. discriminate He.
    - intros Hs. eexists. apply findGroupingColumn_shadowed, Hs. }
  split; [intros rows name log H; apply resolveGroupingColumn_found, H|].
  split; [intros rows log H; apply resolveGroupingColumn_missing, H|].
  split; [intros rows e log H; apply resolveGroupingColumn_thrown, H|].
  intros st file results Hf Hr He Hn.
  apply processCsvFile_failure with (file := file); [exact Hf|].
  rewrite (splitFile_chosen _ Hr).
  assert (Hc : checkErrors results [] = ([], Return tt)).
  { unfold checkErrors. destruct He as [He|He]; [rewrite He; reflexivity|].
    destruct (errors results); [reflexivity|].
    destruct (data results); [contradiction | reflexivity]. }
  unfold splitResults. unfold bind at 1. rewrite Hc. unfold bind at 1.
  rewrite resolveGroupingColumn_missing by exact Hn. reflexivity.
Qed.

(** X17. A first row that owns a column named "hasOwnProperty" is never
    split: the throw of the header test abandons the UTF-8 reading, the
    file is read again as ISO-8859-1, and when that reading shows the same
    column the run ends with the engine's "is not a function" message as
    its error and without any file, whether or not a candidate column is
    there. *)
Theorem processCsvFile_shadowed (st : AppState) (file : File)
        (primary secondary : ParseResult) :
  sourceFile st = Some file ->
  readAndParse file UTF_8 = Return primary ->
  shadows_hasOwnProperty (data primary) ->
  readAndParse file ISO_8859_1 = Return secondary ->
  shadows_hasOwnProperty (data secondary) ->
  parseWithFallback file [] = ([UTF_8; ISO_8859_1], Return secondary)
  /\ error (processCsvFile st) = Some hasOwnProperty_not_a_function_message
  /\ generatedFiles (processCsvFile st) = []
  /\ isLoading (processCsvFile st) = false.
Proof.
  intros Hf Hp Hsp Hs Hss.
  assert (Hr : parseWithFallback file [] = ([UTF_8; ISO_8859_1], Return secondary)).
  { unfold parseWithFallback, try_catch, primaryAttempt, bind, parseWithEncoding, lift.
    simpl. rewrite Hp, (findGroupingColumn_shadowed Hsp), Hs. reflexivity. }
  split; [exact Hr|].
  apply processCsvFile_failure with (file := file); [exact Hf|].
  rewrite splitFile_chosen with (results := secondary) by (rewrite Hr; reflexivity).
  assert (Hc : checkErrors secondary [] = ([], Return tt)).
  { unfold checkErrors. destruct (errors secondary); [reflexivity|].
    destruct Hss as (r & t & -> & _). reflexivity. }
  unfold splitResults. unfold bind at 1. rewrite Hc. unfold bind at 1.
  rewrite resolveGroupingColumn_thrown
    with (e := ErrorObject hasOwnProperty_not_a_function_message)
    by (apply findGroupingColumn_shadowed, Hss).
  reflexivity.
Qed.

(** C7. When the chosen parse result carries errors and has rows, the errors
    are not fatal: the gate passes and the run goes on exactly as it does
    for the same rows without errors.  When it has no rows, the run fails
    with the message built from the row index and the message of the first
    error, and that message becomes the error of the component. *)
Theorem parse_errors_gate (results : ParseResult) (firstError : ParseError)
        (others : list ParseError) :
  errors results = firstError :: others ->
  (data results <> [] ->
   forall log,
     checkErrors results log = (log, Return tt)
     /\ splitResults results log
        = splitResults {| data := data results; errors := [] |} log)
  /\ (data results = [] ->
      (forall log,
          splitResults results log
          = (log, Throw (ErrorObject
                           (lit "Error parsing CSV file on line "
                            ++ ToString_row (error_row firstError) ++ lit ": "
                            ++ error_message firstError
                            ++ lit ". Please check the file format."))))
      /\ (forall st file,
             sourceFile st = Some file ->
             snd (parseWithFallback file []) = Return results ->
             error (processCsvFile st)
             = Some (lit "Error parsing CSV file on line "
                     ++ ToString_row (error_row firstError) ++ lit ": "
                     ++ error_message firstError
                     ++ lit ". Please check the file format.")
             /\ generatedFiles (processCsvFile st) = []
             /\ isLoading (processCsvFile st) = false)).
Proof.
  intros He. split.
  - intros Hd log. unfold splitResults, bind, checkErrors. simpl. rewrite He.
    destruct (data results); [contradiction|]. split; reflexivity.
  - intros Hd.
    assert (Hs : forall log,
               splitResults results log
               = (log, Throw (ErrorObject (parseErrorMessage firstError)))).
    { intros log. unfold splitResults, bind, checkErrors. rewrite He, Hd. reflexivity. }
    split; [exact Hs|].
    intros st file Hf Hr.
    apply processCsvFile_failure with (file := file); [exact Hf|].
    rewrite (splitFile_chosen _ Hr), Hs. reflexivity.
Qed.

End ParsingFacts.

Section ParsingExamples.

Import JsString Js Csv App Spec Runs.

(** C1, as stated, fails on a file that holds only its header line: the
    primary attempt produced zero rows, which the claim calls inconclusive,
    yet no error came with them, so the file is read once, as UTF-8, and
    never as ISO-8859-1. *)
Lemma zero_rows_without_errors_not_retried :
  @readAndParse header_only planilha UTF_8 = Return {| data := []; errors := [] |}
  /\ inconclusive_as_specified {| data := []; errors := [] |}
  /\ @parseWithFallback header_only planilha []
     = ([UTF_8], Return {| data := []; errors := [] |})
  /\ fst (@parseWithFallback header_only planilha []) <> [UTF_8; ISO_8859_1].
Proof.
  repeat split.
  - left. reflexivity.
  - discriminate.
Qed.

(** The amended C1 at the file that holds only its header line: one
    reading, as UTF-8. *)
Lemma parseWithFallback_attempts_witness :
  (exists results,
      @readAndParse header_only planilha UTF_8 = Return results
      /\ ~ inconclusive results
      /\ @parseWithFallback header_only planilha [] = ([UTF_8], Return results))
  \/ (((exists e, @readAndParse header_only planilha UTF_8 = Throw e)
       \/ (exists results,
              @readAndParse header_only planilha UTF_8 = Return results
              /\ inconclusive results))
      /\ @parseWithFallback header_only planilha []
         = ([UTF_8; ISO_8859_1], @readAndParse header_only planilha ISO_8859_1)).
Proof.
  apply (@parseWithFallback_attempts header_only planilha).
  intros results H. vm_compute in H. injection H as <-.
  intros (r & t & E & _). discriminate E.
Defined.

(** C6 at a file with the columns "hasOwnProperty" and "Valor": the first
    row has none of the candidates, so the claim expects the message that
    names them; the call of line 76 throws instead, on the UTF-8 reading
    and again on the ISO-8859-1 reading, and the run ends with the message
    of that [TypeError].  With the grouping column added the call throws
    just the same and no column is returned. *)
Theorem shadowed_hasOwnProperty_breaks_resolution :
  no_candidate_header shadowing_rows
  /\ @findGroupingColumn shadowing_file shadowing_rows
     = Throw (ErrorObject (lit "firstRow.hasOwnProperty is not a function"))
  /\ @parseWithFallback shadowing_file planilha []
     = ([UTF_8; ISO_8859_1], Return {| data := shadowing_rows; errors := [] |})
  /\ error (@processCsvFile shadowing_file (selected planilha))
     = Some (lit "firstRow.hasOwnProperty is not a function")
  /\ error (@processCsvFile shadowing_file (selected planilha))
     <> Some missingColumnMessage
  /\ owns (List.hd [] shadowing_with_operadora) (lit "Nome da operadora:") = true
  /\ @findGroupingColumn shadowing_file shadowing_with_operadora
     = Throw (ErrorObject (lit "firstRow.hasOwnProperty is not a function")).
Proof.
  split.
  { eexists. eexists. split; [reflexivity|]. repeat constructor. }
  repeat split. discriminate.
Qed.

(** The run over the file with the columns "hasOwnProperty" and "Valor". *)
Lemma processCsvFile_shadowed_witness :
  error (@processCsvFile shadowing_file (selected planilha))
  = Some (lit "firstRow.hasOwnProperty is not a function")
  /\ generatedFiles (@processCsvFile shadowing_file (selected planilha)) = [].
Proof.
  destruct (@processCsvFile_shadowed shadowing_file (selected planilha) planilha
              {| data := shadowing_rows; errors := [] |}
              {| data := shadowing_rows; errors := [] |})
    as (_ & He & Hg & _).
  - reflexivity.
  - reflexivity.
  - eexists. eexists. split; reflexivity.
  - reflexivity.
  - eexists. eexists. split; reflexivity.
  - split; [exact He | exact Hg].
Defined.

(** The gate at a file whose only record has an unterminated quote. *)
Lemma parse_errors_gate_witness :
  @error (@processCsvFile broken_file
            {| sourceFile := Some planilha; generatedFiles := [];
               isLoading := false; isZipping := false; error := None |})
  = Some (lit "Error parsing CSV file on line 0: Quoted field unterminated. Please check the file format.").
Proof.
  refine (proj1 (proj2 (proj2 (@parse_errors_gate broken_file unterminated_quote
                                 _ _ eq_refl) eq_refl)
                   {| sourceFile := Some planilha; generatedFiles := [];
                      isLoading := false; isZipping := false; error := None |}
                   planilha eq_refl eq_refl)).
Defined.

End ParsingExamples.

(* ===================================================================== *)
(** * Properties of the handlers *)
(* ===================================================================== *)

Section HandlerFacts.

Import JsString Js Csv App Spec.

Context {ext : Collaborators}.

Lemma acceptedAsCsv_iff (file : File) :
  acceptedAsCsv file = true
  <-> file_type file = lit "text/csv"
      \/ endsWith (toLowerCase (file_name file)) (lit ".csv") = true.
Proof.
  unfold acceptedAsCsv.
  rewrite negb_true_iff, andb_false_iff, !negb_false_iff, eqb_eq. reflexivity.
Qed.

(** C10. A file taken as CSV (its type is text/csv or its lowered name
    ends with ".csv") becomes the selected file, and the error and the list
    of generated files are cleared by the selection itself; a file that is
    not taken as CSV sets the invalid-file-type error and clears the
    selection, and the list of generated files stays as it was.  The two
    busy flags are never touched. *)
Theorem handleFileSelect_frame (file : File) (st : AppState) :
  (acceptedAsCsv file = true <->
   file_type file = lit "text/csv"
   \/ endsWith (toLowerCase (file_name file)) (lit ".csv") = true)
  /\ (acceptedAsCsv file = true ->
      error (handleFileSelect file st) = None
      /\ generatedFiles (handleFileSelect file st) = []
      /\ sourceFile (handleFileSelect file st) = Some file)
  /\ (acceptedAsCsv file = false ->
      error (handleFileSelect file st)
      = Some (lit "Invalid file type. Please upload a CSV file.")
      /\ sourceFile (handleFileSelect file st) = None
      /\ generatedFiles (handleFileSelect file st) = generatedFiles st)
  /\ isLoading (handleFileSelect file st) = isLoading st
  /\ isZipping (handleFileSelect file st) = isZipping st.
Proof.
  split; [apply acceptedAsCsv_iff|].
  unfold acceptedAsCsv, handleFileSelect.
  destruct (negb (eqb (file_type file) (lit "text/csv"))
            && negb (endsWith (toLowerCase (file_name file)) (lit ".csv")));
    simpl; repeat split; intros; try discriminate; reflexivity.
Qed.

(** C8. When the archive cannot be built, the error becomes the archive
    failure message, the generated files are the ones there were before,
    the selected file and the loading flag are unchanged, and the zipping
    flag is down again. *)
Theorem downloadAllAsZip_failure (st : AppState) (e : Thrown) :
  generatedFiles st <> [] ->
  JSZip_generate_and_save (generatedFiles st) = Throw e ->
  error (downloadAllAsZip st)
  = Some (lit "Could not create the ZIP file. Please try downloading files individually.")
  /\ generatedFiles (downloadAllAsZip st) = generatedFiles st
  /\ sourceFile (downloadAllAsZip st) = sourceFile st
  /\ isLoading (downloadAllAsZip st) = isLoading st
  /\ isZipping (downloadAllAsZip st) = false.
Proof.
  intros Hg Hz. unfold downloadAllAsZip.
  destruct (generatedFiles st) as [|f fs] eqn:E; [contradiction|].
  simpl. rewrite E, Hz. simpl. rewrite E. repeat split.
Qed.

End HandlerFacts.

Section HandlerExamples.

Import JsString Js Csv App Spec.

(** The selection of "planilha.csv" over stale results, and of "notes.txt":
    the first clears the error and the results, the second keeps the
    results. *)
Lemma handleFileSelect_frame_witness :
  (error (@handleFileSelect header_only planilha stale) = None
   /\ generatedFiles (@handleFileSelect header_only planilha stale) = []
   /\ sourceFile (@handleFileSelect header_only planilha stale) = Some planilha)
  /\ (error (@handleFileSelect header_only notes_txt stale)
      = Some (lit "Invalid file type. Please upload a CSV file.")
      /\ sourceFile (@handleFileSelect header_only notes_txt stale) = None
      /\ generatedFiles (@handleFileSelect header_only notes_txt stale)
         = generatedFiles stale).
Proof.
  split.
  - exact (proj1 (proj2 (@handleFileSelect_frame header_only planilha stale)) eq_refl).
  - exact (proj1 (proj2 (proj2 (@handleFileSelect_frame header_only notes_txt stale)))
             eq_refl).
Defined.

(** Scenario 1 has been split into A.csv and B.csv when the archiver
    fails: both files are still there. *)
Lemma downloadAllAsZip_failure_witness :
  error (@downloadAllAsZip failing_archiver
           (@processCsvFile failing_archiver (selected planilha)))
  = Some (lit "Could not create the ZIP file. Please try downloading files individually.")
  /\ List.map filename
       (generatedFiles (@downloadAllAsZip failing_archiver
                          (@processCsvFile failing_archiver (selected planilha))))
     = [lit "A.csv"; lit "B.csv"].
Proof.
  destruct (@downloadAllAsZip_failure failing_archiver
              (@processCsvFile failing_archiver (selected planilha)) OtherValue)
    as (He & Hg & _).
  - discriminate.
  - reflexivity.
  - split; [exact He|]. rewrite Hg. reflexivity.
Defined.

End HandlerExamples.

(* ===================================================================== *)
(** * Properties of the grouping *)
(* ===================================================================== *)

Section GroupingFacts.

Import JsString Js Csv App Spec.

Context {ext : Collaborators}.

Lemma eqb_sym (a b : jsstring) : eqb a b = eqb b a.
Proof.
  destruct (eqb b a) eqn:E.
  - apply eqb_eq in E. subst. apply eqb_refl.
  - apply eqb_neq in E. apply eqb_neq. congruence.
Qed.

Lemma first_occurrences_In (k : jsstring) (l : list jsstring) :
  In k (first_occurrences l) <-> In k l.
Proof.
  induction l as [|a l IH]; simpl; [reflexivity|].
  destruct (eq_dec a k) as [->|Hne].
  - split; auto.
  - split.
    + intros [H|H]; [auto|]. apply in_remove in H. right. apply IH, H.
    + intros [H|H]; [auto|]. right. apply in_in_remove; [congruence | apply IH, H].
Qed.

Lemma NoDup_remove_elt (k : jsstring) (l : list jsstring) :
  NoDup l -> NoDup (remove eq_dec k l).
Proof.
  induction 1 as [|a l Ha _ IH]; simpl; [constructor|].
  destruct (eq_dec k a); [exact IH|].
  constructor; [|exact IH]. intros H. apply in_remove in H. apply Ha, H.
Qed.

Lemma first_occurrences_NoDup (l : list jsstring) : NoDup (first_occurrences l).
Proof.
  induction l as [|a l IH]; simpl; constructor.
  - apply remove_In.
  - apply NoDup_remove_elt, IH.
Qed.

Lemma remove_app_last (a k : jsstring) (l : list jsstring) :
  remove eq_dec a (l ++ [k])
  = remove eq_dec a l ++ (if eq_dec a k then [] else [k]).
Proof. rewrite remove_app. simpl. reflexivity. Qed.

(** A key that occurs again changes nothing; a new key is listed last. *)
Lemma first_occurrences_snoc (l : list jsstring) (k : jsstring) :
  first_occurrences (l ++ [k])
  = if in_dec eq_dec k l then first_occurrences l else first_occurrences l ++ [k].
Proof.
  induction l as [|a l IH]; simpl; [reflexivity|].
  rewrite IH. destruct (eq_dec a k) as [->|Hne].
  - destruct (in_dec eq_dec k l) as [Hin|Hnin]; [reflexivity|].
    rewrite remove_app_last. destruct (eq_dec k k); [|congruence].
    rewrite app_nil_r. reflexivity.
  - destruct (in_dec eq_dec k l) as [Hin|Hnin]; [reflexivity|].
    rewrite remove_app_last. destruct (eq_dec a k); [congruence|]. reflexivity.
Qed.

Lemma keys_app (col : jsstring) (l1 l2 : list Row) :
  keys col (l1 ++ l2) = keys col l1 ++ keys col l2.
Proof. apply flat_map_app. Qed.

Lemma keys_In (col k : jsstring) (rows : list Row) :
  In k (keys col rows) <-> exists row, In row rows /\ groupNameOf col row = Some k.
Proof.
  unfold keys. rewrite in_flat_map. split.
  - intros (row & Hin & H). exists row. split; [exact Hin|].
    destruct (groupNameOf col row); simpl in H; [|contradiction].
    destruct H as [->|[]]. reflexivity.
  - intros (row & Hin & H). exists row. split; [exact Hin|]. rewrite H. left. reflexivity.
Qed.

Lemma has_key_iff (col k : jsstring) (row : Row) :
  has_key col k row = true <-> groupNameOf col row = Some k.
Proof.
  unfold has_key. destruct (groupNameOf col row) as [k'|].
  - rewrite eqb_eq. split; congruence.
  - split; discriminate.
Qed.

Lemma filter_has_key_absent (col k : jsstring) (rows : list Row) :
  ~ In k (keys col rows) -> filter (has_key col k) rows = [].
Proof.
  intros H. induction rows as [|row rows IH]; simpl; [reflexivity|].
  destruct (has_key col k row) eqn:E.
  - exfalso. apply H. apply keys_In. exists row. split; [left; reflexivity|].
    apply has_key_iff, E.
  - apply IH. intros Hin. apply H. apply keys_In. apply keys_In in Hin.
    destruct Hin as (r & Hr & Hk). exists r. split; [right; exact Hr | exact Hk].
Qed.

(** ** The accumulator as a list of own properties *)

Lemma own_map (g : jsstring -> list Row) (K : list jsstring) (k : jsstring) :
  own (List.map (fun k' => (k', g k')) K) k
  = if in_dec eq_dec k K then Some (g k) else None.
Proof.
  induction K as [|a K IH]; simpl; [reflexivity|].
  destruct (eqb a k) eqn:E.
  - apply eqb_eq in E. subst a. destruct (eq_dec k k); [reflexivity | congruence].
  - apply eqb_neq in E. rewrite IH. destruct (eq_dec a k); [congruence|].
    destruct (in_dec eq_dec k K); reflexivity.
Qed.

Lemma push_map (g : jsstring -> list Row) (K : list jsstring) (k : jsstring) (row : Row) :
  NoDup K ->
  push (List.map (fun k' => (k', g k')) K) k row
  = List.map (fun k' => (k', if eqb k k' then g k' ++ [row] else g k')) K.
Proof.
  induction 1 as [|a K Ha _ IH]; simpl; [reflexivity|].
  rewrite (eqb_sym k a). destruct (eqb a k) eqn:E.
  - apply eqb_eq in E. subst a. f_equal. apply map_ext_in. intros k' Hk'.
    assert (Hne : eqb k k' = false) by (apply eqb_neq; congruence).
    rewrite Hne. reflexivity.
  - f_equal. exact IH.
Qed.

Lemma own_create (acc : GroupsObject) (k : jsstring) :
  own acc k = None -> own (create acc k) k = Some [].
Proof.
  unfold create. induction acc as [|[a rows] acc IH]; simpl.
  - rewrite eqb_refl. reflexivity.
  - destruct (eqb a k); [discriminate | exact IH].
Qed.

Lemma push_create (acc : GroupsObject) (k : jsstring) (row : Row) :
  own acc k = None -> push (create acc k) k row = acc ++ [(k, [row])].
Proof.
  unfold create. induction acc as [|[a rows] acc IH]; simpl.
  - rewrite eqb_refl. reflexivity.
  - destruct (eqb a k); [discriminate|]. intros H. rewrite (IH H). reflexivity.
Qed.

(** ** The [reduce] builds the groups of the rows read so far *)

Lemma reducer_step (col : jsstring) (done : list Row) (row : Row) :
  (forall k, groupNameOf col row = Some k -> inherited k = false) ->
  reducer col (grouped col done) row = Return (grouped col (done ++ [row])).
Proof.
  intros Hok. unfold reducer, grouped.
  rewrite keys_app. unfold keys at 3. simpl.
  destruct (groupNameOf col row) as [k|] eqn:Hk; simpl.
  - rewrite first_occurrences_snoc.
    unfold lookup. rewrite own_map.
    destruct (in_dec eq_dec k (first_occurrences (keys col done))) as [Hin|Hnin].
    + destruct (in_dec eq_dec k (keys col done)) as [_|Hn];
        [|exfalso; apply Hn, first_occurrences_In, Hin].
      rewrite own_map. destruct (in_dec eq_dec k _); [|contradiction].
      rewrite push_map by apply first_occurrences_NoDup.
      f_equal. apply map_ext. intros k'. rewrite filter_app. simpl.
      unfold has_key at 4. rewrite Hk, (eqb_sym k' k).
      destruct (eqb k k'); [reflexivity | rewrite app_nil_r; reflexivity].
    + destruct (in_dec eq_dec k (keys col done)) as [Hi|Hn];
        [exfalso; apply Hnin, first_occurrences_In, Hi|].
      rewrite (Hok k eq_refl).
      assert (Hown : own (List.map (fun k0 => (k0, filter (has_key col k0) done))
                            (first_occurrences (keys col done))) k = None).
      { rewrite own_map. destruct (in_dec eq_dec k _); [contradiction | reflexivity]. }
      rewrite own_create, push_create by exact Hown.
      rewrite map_app. simpl. f_equal. f_equal.
      * apply map_ext_in. intros k' Hk'. rewrite filter_app. simpl.
        unfold has_key at 3. rewrite Hk.
        assert (Hne : eqb k' k = false) by (apply eqb_neq; congruence).
        rewrite Hne, app_nil_r. reflexivity.
      * rewrite filter_app, filter_has_key_absent by exact Hn. simpl.
        unfold has_key. rewrite Hk, eqb_refl. reflexivity.
  - rewrite app_nil_r. f_equal. apply map_ext. intros k'. rewrite filter_app. simpl.
    unfold has_key at 3. rewrite Hk, app_nil_r. reflexivity.
Qed.

Lemma reduce_grouped (col : jsstring) (rest done : list Row) :
  no_inherited_key col rest ->
  reduce (reducer col) rest (grouped col done) = Return (grouped col (done ++ rest)).
Proof.
  intros H. revert done. induction H as [|row rest Hrow _ IH]; intros done; simpl.
  - rewrite app_nil_r. reflexivity.
  - rewrite reducer_step by exact Hrow. rewrite IH, <- app_assoc. reflexivity.
Qed.

(** When no row names an inherited property, the [reduce] returns the
    groups in closed form. *)
Lemma groupRows_closed_form (col : jsstring) (rows : list Row) :
  no_inherited_key col rows -> groupRows col rows = Return (grouped col rows).
Proof. intros H. exact (@reduce_grouped col rows [] H). Qed.

Lemma reduce_app {A B} (f : B -> A -> Outcome B) (l1 l2 : list A) (acc : B) :
  reduce f (l1 ++ l2) acc
  = match reduce f l1 acc with
    | Return acc' => reduce f l2 acc'
    | Throw e => Throw e
    end.
Proof.
  revert acc. induction l1 as [|x l1 IH]; intros acc; simpl; [reflexivity|].
  destruct (f acc x); [apply IH | reflexivity].
Qed.

(** The first row that names an inherited property ends the [reduce] with
    the [TypeError] of [acc[groupName].push]. *)
Lemma groupRows_inherited_key (col k : jsstring) (before after : list Row) (row : Row) :
  no_inherited_key col before ->
  groupNameOf col row = Some k ->
  inherited k = true ->
  groupRows col (before ++ row :: after) = Throw (ErrorObject not_a_function_message).
Proof.
  intros Hb Hk Hi. unfold groupRows. rewrite reduce_app.
  change (reduce (reducer col) before []) with (groupRows col before).
  rewrite (groupRows_closed_form Hb). simpl.
  assert (Hown : own (grouped col before) k = None).
  { unfold grouped. rewrite own_map.
    destruct (in_dec eq_dec k _) as [Hin|]; [|reflexivity].
    apply first_occurrences_In, keys_In in Hin. destruct Hin as (r & Hr & Hrk).
    pose proof (proj1 (Forall_forall _ _) Hb r Hr k Hrk). congruence. }
  unfold reducer. rewrite Hk. unfold lookup. rewrite Hown, Hi. simpl.
  rewrite ?Hown, ?Hi. reflexivity.
Qed.

(** ** [Object.entries] *)

Lemma insert_by_index_perm {A} (e : N * A) (l : list (N * A)) :
  Permutation (insert_by_index e l) (e :: l).
Proof.
  induction l as [|x l IH]; simpl; [apply Permutation_refl|].
  destruct (fst e <=? fst x)%N; [apply Permutation_refl|].
  eapply perm_trans; [apply perm_skip, IH | apply perm_swap].
Qed.

Lemma sort_by_index_perm {A} (l : list (N * A)) : Permutation (sort_by_index l) l.
Proof.
  induction l as [|x l IH]; simpl; [constructor|].
  eapply perm_trans; [apply insert_by_index_perm | apply perm_skip, IH].
Qed.

Lemma insert_by_index_sorted {A} (e : N * A) (l : list (N * A)) :
  Sorted by_fst l -> Sorted by_fst (insert_by_index e l).
Proof.
  induction 1 as [|x l Hs IH Hhd]; simpl.
  - repeat constructor.
  - destruct (fst e <=? fst x)%N eqn:E.
    + constructor; [constructor; assumption|]. constructor. apply N.leb_le, E.
    + constructor; [exact IH|].
      assert (Hxe : by_fst x e) by (unfold by_fst; apply N.leb_gt in E; lia).
      destruct l as [|y l]; simpl.
      * constructor. exact Hxe.
      * destruct (fst e <=? fst y)%N; constructor; [exact Hxe|].
        inversion Hhd. assumption.
Qed.

Lemma sort_by_index_sorted {A} (l : list (N * A)) : Sorted by_fst (sort_by_index l).
Proof.
  induction l as [|x l IH]; simpl; [constructor|].
  apply insert_by_index_sorted, IH.
Qed.

Lemma by_fst_trans {A} : Relations_1.Transitive (@by_fst A).
Proof. intros a b c. unfold by_fst. lia. Qed.

Lemma index_properties_index {A} (o : list (jsstring * A)) :
  Forall (fun p => index_value (snd p) = fst p) (index_properties o).
Proof.
  unfold index_properties. apply Forall_forall. intros [i kv] H.
  apply in_flat_map in H. destruct H as (kv' & _ & H).
  destruct (array_index (fst kv')) eqn:E; simpl in H; [|contradiction].
  destruct H as [[= <- <-]|[]]. unfold index_value. simpl. rewrite E. reflexivity.
Qed.

Lemma index_properties_filter {A} (o : list (jsstring * A)) :
  List.map snd (index_properties o) = filter is_index o.
Proof.
  unfold index_properties, is_index. induction o as [|kv o IH]; simpl; [reflexivity|].
  destruct (array_index (fst kv)); simpl; rewrite IH; reflexivity.
Qed.

Lemma sorted_index_values {A} (l : list (N * (jsstring * A))) :
  StronglySorted by_fst l ->
  Forall (fun p => index_value (snd p) = fst p) l ->
  StronglySorted (fun a b => (index_value a <= index_value b)%N) (List.map snd l).
Proof.
  induction 1 as [|p l Hs IH Hall]; intros Hf; simpl; constructor.
  - apply IH. inversion Hf; assumption.
  - apply Forall_map. inversion Hf as [|? ? Hp Hl]; subst.
    apply Forall_forall. intros q Hq.
    pose proof (proj1 (Forall_forall _ _) Hall q Hq) as H1.
    pose proof (proj1 (Forall_forall _ _) Hl q Hq) as H2.
    unfold by_fst in H1. simpl in *. lia.
Qed.

(** The entries are the array-index keys in ascending order followed by the
    other keys in creation order, and no entry is lost or added. *)
Lemma Object_entries_order {A} (o : list (jsstring * A)) :
  exists indexed,
    Object_entries o = indexed ++ filter (fun e => negb (is_index e)) o
    /\ Permutation indexed (filter is_index o)
    /\ StronglySorted (fun a b => (index_value a <= index_value b)%N) indexed.
Proof.
  exists (List.map snd (sort_by_index (index_properties o))). split; [reflexivity|]. split.
  - rewrite <- index_properties_filter. apply Permutation_map, sort_by_index_perm.
  - apply sorted_index_values.
    + apply Sorted_StronglySorted; [apply by_fst_trans | apply sort_by_index_sorted].
    + eapply Permutation_Forall; [|apply index_properties_index].
      apply Permutation_sym, sort_by_index_perm.
Qed.

Lemma filter_split_perm {A} (f : A -> bool) (l : list A) :
  Permutation (filter f l ++ filter (fun x => negb (f x)) l) l.
Proof.
  induction l as [|x l IH]; simpl; [constructor|].
  destruct (f x); simpl.
  - apply perm_skip, IH.
  - apply Permutation_sym, Permutation_cons_app, Permutation_sym, IH.
Qed.

Lemma Object_entries_perm {A} (o : list (jsstring * A)) : Permutation (Object_entries o) o.
Proof.
  destruct (Object_entries_order o) as (indexed & -> & Hp & _).
  eapply perm_trans; [apply Permutation_app_tail, Hp | apply filter_split_perm].
Qed.

(** ** The partition *)

Lemma groupNameOf_iff (col k : jsstring) (row : Row) :
  groupNameOf col row = Some k
  <-> exists value, get row col = Some value /\ k = trim value /\ k <> [].
Proof.
  unfold groupNameOf, truthy. split.
  - destruct (get row col) as [value|]; [|discriminate].
    destruct (trim value) eqn:E; simpl; [discriminate|].
    intros [= <-]. exists value. repeat split; [symmetry; exact E | discriminate].
  - intros (value & -> & -> & Hne). destruct (trim value); [contradiction | reflexivity].
Qed.

Lemma grouped_In (col k : jsstring) (group rows : list Row) :
  In (k, group) (grouped col rows) ->
  In k (keys col rows) /\ group = filter (has_key col k) rows.
Proof.
  unfold grouped. intros H. apply in_map_iff in H. destruct H as (k' & [= <- <-] & Hk).
  split; [apply first_occurrences_In, Hk | reflexivity].
Qed.

Lemma grouped_keys (col : jsstring) (rows : list Row) :
  List.map fst (grouped col rows) = first_occurrences (keys col rows).
Proof. unfold grouped. rewrite map_map. simpl. apply map_id. Qed.

(** C2, amended. When no row names a property that a plain object
    inherits, the rows are taken in their order; a row whose value at the
    grouping column is missing or empty after trimming is skipped without
    an error; any other row is appended to the group of its trimmed value,
    which is created at the first occurrence of that value, so every group
    holds its rows in their original order.  The groups are put out with
    the keys that are array indices first, in ascending numeric order, and
    the other keys after them in the order of their first occurrence. *)
Theorem groupRows_partition (col : jsstring) (rows : list Row) :
  no_inherited_key col rows ->
  (forall row k,
      groupNameOf col row = Some k
      <-> exists value, get row col = Some value /\ k = trim value /\ k <> [])
  /\ exists groupedByValue,
      groupRows col rows = Return groupedByValue
      /\ List.map fst groupedByValue = first_occurrences (keys col rows)
      /\ (forall k group,
            In (k, group) groupedByValue -> group = filter (has_key col k) rows)
      /\ exists indexed,
          List.map filename (generateFiles groupedByValue)
          = List.map (fun entry => sanitizeFilename (fst entry))
                     (indexed ++ filter (fun e => negb (is_index e)) groupedByValue)
          /\ List.map content (generateFiles groupedByValue)
             = List.map (fun entry => Papa_unparse (snd entry))
                        (indexed ++ filter (fun e => negb (is_index e)) groupedByValue)
          /\ Permutation indexed (filter is_index groupedByValue)
          /\ StronglySorted (fun a b => (index_value a <= index_value b)%N) indexed.
Proof.
  intros Hok. split; [intros row k; apply groupNameOf_iff|].
  exists (grouped col rows). split; [apply groupRows_closed_form, Hok|].
  split; [apply grouped_keys|].
  split; [intros k group H; apply (grouped_In _ _ _ _ H)|].
  destruct (Object_entries_order (grouped col rows)) as (indexed & He & Hp & Hs).
  exists indexed. unfold generateFiles. rewrite !map_map, He. simpl.
  repeat split; assumption.
Qed.

Lemma flat_map_ext_in {A B} (f g : A -> list B) (l : list A) :
  (forall a, In a l -> f a = g a) -> flat_map f l = flat_map g l.
Proof.
  induction l as [|a l IH]; intros H; simpl; [reflexivity|].
  rewrite (H a (or_introl eq_refl)), IH; [reflexivity|].
  intros b Hb. apply H. right. exact Hb.
Qed.

(** The groups of a set of keys that covers the rows, together with the
    dropped rows, hold every row once. *)
Lemma groups_and_dropped_perm (col : jsstring) (K : list jsstring) (rows : list Row) :
  NoDup K ->
  (forall k, In k (keys col rows) -> In k K) ->
  Permutation (flat_map (fun k => filter (has_key col k) rows) K ++ dropped col rows) rows.
Proof.
  intros HK. induction rows as [|row rows IH]; intros Hcov.
  - simpl. rewrite app_nil_r. clear. induction K; simpl; [constructor | exact IHK].
  - assert (Hcov' : forall k, In k (keys col rows) -> In k K).
    { intros k Hk. apply Hcov. unfold keys. simpl. apply in_or_app. right. exact Hk. }
    specialize (IH Hcov'). unfold dropped in *. simpl.
    destruct (groupNameOf col row) as [k0|] eqn:Hk0; simpl.
    + assert (Hin : In k0 K).
      { apply Hcov. unfold keys. simpl. rewrite Hk0. left. reflexivity. }
      apply in_split in Hin. destruct Hin as (K1 & K2 & ->).
      apply NoDup_remove_2 in HK.
      assert (Hother : forall K', (forall k, In k K' -> In k (K1 ++ K2)) ->
                 flat_map (fun k => filter (has_key col k) (row :: rows)) K'
                 = flat_map (fun k => filter (has_key col k) rows) K').
      { intros K' HK'. apply flat_map_ext_in. intros k Hk. simpl.
        unfold has_key at 1. rewrite Hk0.
        assert (Hne : eqb k k0 = false).
        { apply eqb_neq. intros ->. apply HK, HK', Hk. }
        rewrite Hne. reflexivity. }
      rewrite flat_map_app in *. simpl in *.
      rewrite (Hother K1) by (intros k Hk; apply in_or_app; left; exact Hk).
      rewrite (Hother K2) by (intros k Hk; apply in_or_app; right; exact Hk).
      unfold has_key at 2. rewrite Hk0, eqb_refl.
      rewrite <- !app_assoc. simpl.
      apply Permutation_sym, Permutation_cons_app, Permutation_sym.
      rewrite <- !app_assoc in IH. exact IH.
    + assert (Hsame : flat_map (fun k => filter (has_key col k) (row :: rows)) K
                      = flat_map (fun k => filter (has_key col k) rows) K).
      { apply flat_map_ext_in. intros k _. simpl. unfold has_key at 1.
        rewrite Hk0. reflexivity. }
      simpl in Hsame. rewrite Hsame.
      apply Permutation_sym, Permutation_cons_app, Permutation_sym, IH.
Qed.

(** The partition is a conservation whenever it is produced: with no row
    naming an inherited property, the rows of the output groups and the
    dropped rows are the input rows, each once; the counts add up; every row
    of a group has the group's key as its trimmed value; no row is in two
    groups; and no key is put out twice. *)
Theorem groupRows_conservation (col : jsstring) (rows : list Row) :
  no_inherited_key col rows ->
  exists groupedByValue,
    groupRows col rows = Return groupedByValue
    /\ Permutation
         (List.concat (List.map snd (Object_entries groupedByValue)) ++ dropped col rows)
         rows
    /\ List.length (List.concat (List.map snd (Object_entries groupedByValue)))
       + List.length (dropped col rows)
       = List.length rows
    /\ (forall k group row,
          In (k, group) (Object_entries groupedByValue) -> In row group ->
          groupNameOf col row = Some k)
    /\ (forall k1 group1 k2 group2 row,
          In (k1, group1) (Object_entries groupedByValue) ->
          In (k2, group2) (Object_entries groupedByValue) ->
          In row group1 -> In row group2 ->
          k1 = k2 /\ group1 = group2)
    /\ NoDup (List.map fst (Object_entries groupedByValue)).
Proof.
  intros Hok. exists (grouped col rows). split; [apply groupRows_closed_form, Hok|].
  pose proof (Object_entries_perm (grouped col rows)) as Hp.
  assert (Hperm : Permutation
            (List.concat (List.map snd (Object_entries (grouped col rows)))
             ++ dropped col rows) rows).
  { eapply perm_trans.
    - apply Permutation_app_tail. rewrite <- flat_map_concat_map.
      apply Permutation_flat_map, Hp.
    - unfold grouped. rewrite flat_map_concat_map, map_map, <- flat_map_concat_map.
      simpl. apply groups_and_dropped_perm.
      + apply first_occurrences_NoDup.
      + intros k Hk. apply first_occurrences_In, Hk. }
  assert (Hkey : forall k group row,
             In (k, group) (Object_entries (grouped col rows)) -> In row group ->
             groupNameOf col row = Some k).
  { intros k group row Hg Hr.
    apply (Permutation_in _ Hp), grouped_In in Hg. destruct Hg as [_ ->].
    apply filter_In in Hr. apply has_key_iff, Hr. }
  split; [exact Hperm|]. split.
  { rewrite <- (Permutation_length Hperm), length_app. reflexivity. }
  split; [exact Hkey|]. split.
  - intros k1 g1 k2 g2 row H1 H2 Hr1 Hr2.
    pose proof (Hkey _ _ _ H1 Hr1) as E1. pose proof (Hkey _ _ _ H2 Hr2) as E2.
    assert (k1 = k2) by congruence. subst k2. split; [reflexivity|].
    apply (Permutation_in _ Hp), grouped_In in H1.
    apply (Permutation_in _ Hp), grouped_In in H2.
    destruct H1 as [_ ->], H2 as [_ ->]. reflexivity.
  - eapply Permutation_NoDup; [apply Permutation_sym, Permutation_map, Hp|].
    rewrite grouped_keys. apply first_occurrences_NoDup.
Qed.

End GroupingFacts.

Section GroupingExamples.

Import JsString Js Csv App Spec.

Lemma mixed_keys_not_inherited : no_inherited_key operadora mixed_keys.
Proof.
  repeat constructor; intros k H; vm_compute in H;
    first [discriminate H | injection H as <-; reflexivity].
Defined.

(** The partition of the keys B, 7, B, blanks, 10: the groups are created
    as B, 7, 10 and put out as 7.csv, 10.csv, B.csv. *)
Lemma groupRows_partition_witness :
  exists groupedByValue,
    @groupRows header_only operadora mixed_keys = Return groupedByValue
    /\ List.map fst groupedByValue = [lit "B"; lit "7"; lit "10"]
    /\ List.map filename (@generateFiles header_only groupedByValue)
       = [lit "7.csv"; lit "10.csv"; lit "B.csv"].
Proof.
  destruct (@groupRows_partition header_only operadora mixed_keys mixed_keys_not_inherited)
    as (_ & g & Hg & Hk & _).
  exists g. split; [exact Hg|]. split; [exact Hk|].
  vm_compute in Hg. injection Hg as <-. reflexivity.
Defined.

(** C2, as stated, fails on the operators B and 7, in this order: the key
    "7" is an array index, so its group is put out before the group of "B",
    which occurs first. *)
Lemma groups_not_in_first_occurrence_order :
  exists groupedByValue,
    @groupRows header_only operadora b_then_7 = Return groupedByValue
    /\ first_occurrences (keys operadora b_then_7) = [lit "B"; lit "7"]
    /\ List.map fst (Object_entries groupedByValue) = [lit "7"; lit "B"]
    /\ List.map filename (@generateFiles header_only groupedByValue)
       = [lit "7.csv"; lit "B.csv"]
    /\ List.map fst (Object_entries groupedByValue)
       <> first_occurrences (keys operadora b_then_7).
Proof.
  eexists. split; [reflexivity|]. repeat split. discriminate.
Qed.

(** C5 at a file with the operators A and constructor: both rows have a
    non-empty key and none is dropped, yet [acc["constructor"]] is the
    inherited function, nothing is created for it, the call of its [push]
    throws, and the run ends with that error and without any group. *)
Theorem inherited_key_aborts_split :
  @findGroupingColumn constructor_file constructor_rows = Return (Some operadora)
  /\ keys operadora constructor_rows = [lit "A"; lit "constructor"]
  /\ dropped operadora constructor_rows = []
  /\ @groupRows constructor_file operadora constructor_rows
     = Throw (ErrorObject (lit "acc[groupName].push is not a function"))
  /\ generatedFiles (@processCsvFile constructor_file (selected planilha)) = []
  /\ error (@processCsvFile constructor_file (selected planilha))
     = Some (lit "acc[groupName].push is not a function").
Proof. repeat split. Qed.

(** The conservation at the keys B, 7, B, blanks, 10: four rows in three
    groups and one dropped row. *)
Lemma groupRows_conservation_witness :
  exists groupedByValue,
    @groupRows header_only operadora mixed_keys = Return groupedByValue
    /\ List.length (List.concat (List.map snd (Object_entries groupedByValue))) = 4
    /\ List.length (dropped operadora mixed_keys) = 1.
Proof.
  destruct (@groupRows_conservation header_only operadora mixed_keys
              mixed_keys_not_inherited) as (g & Hg & _).
  exists g. split; [exact Hg|].
  vm_compute in Hg. injection Hg as <-. split; reflexivity.
Defined.

(** The row of the operator "constructor" ends the grouping. *)
Lemma groupRows_inherited_key_witness :
  @groupRows constructor_file operadora
     ([row_of "A" "1"] ++ row_of "constructor" "2" :: [])
  = Throw (ErrorObject (lit "acc[groupName].push is not a function")).
Proof.
  apply (@groupRows_inherited_key constructor_file operadora (lit "constructor")
           [row_of "A" "1"] [] (row_of "constructor" "2")).
  - repeat constructor. intros k H. vm_compute in H. injection H as <-. reflexivity.
  - reflexivity.
  - reflexivity.
Defined.

End GroupingExamples.

(* ===================================================================== *)
(** * More on trimming and on the sanitizer *)
(* ===================================================================== *)

Section TrimFacts.

Import JsString Js Csv App Spec Runs.

Local Open Scope N_scope.

Lemma skip_while_split (cls : code_unit -> bool) (s : jsstring) :
  exists skipped,
    s = skipped ++ skip_while cls s /\ Forall (fun c => cls c = true) skipped.
Proof.
  induction s as [|c s (p & Hs & Hp)]; simpl.
  - exists []. split; [reflexivity | constructor].
  - destruct (cls c) eqn:Hc.
    + exists (c :: p). split; [simpl; f_equal; exact Hs | constructor; assumption].
    + exists []. split; [reflexivity | constructor].
Qed.

Lemma skip_while_stops (cls : code_unit -> bool) (s : jsstring) (c : code_unit)
      (rest : jsstring) :
  skip_while cls s = c :: rest -> cls c = false.
Proof.
  induction s as [|d s IH]; simpl; [discriminate|].
  destruct (cls d) eqn:Hd; [exact IH|]. intros [= <- _]. exact Hd.
Qed.

Lemma skip_while_nil_iff (cls : code_unit -> bool) (s : jsstring) :
  skip_while cls s = [] <-> Forall (fun c => cls c = true) s.
Proof.
  induction s as [|d s IH]; simpl.
  - split; constructor.
  - destruct (cls d) eqn:Hd.
    + rewrite IH. split; [constructor; assumption | inversion 1; assumption].
    + split; [discriminate | inversion 1; congruence].
Qed.

(** [trim] cuts a run of whitespace off each end and nothing else. *)
Lemma trim_split (s : jsstring) :
  exists before after,
    s = before ++ trim s ++ after /\ all_whitespace before /\ all_whitespace after.
Proof.
  unfold trim, trimEnd, trimStart.
  destruct (skip_while_split is_whitespace s) as (p1 & H1 & Hp1).
  destruct (skip_while_split is_whitespace (rev (skip_while is_whitespace s)))
    as (p2 & H2 & Hp2).
  exists p1, (rev p2). repeat split.
  - rewrite <- rev_app_distr, <- H2, rev_involutive. exact H1.
  - exact Hp1.
  - apply Forall_rev, Hp2.
Qed.

Lemma trim_ends (s : jsstring) (c : code_unit) (rest : jsstring) :
  trim s = c :: rest ->
  is_whitespace c = false /\ is_whitespace (last (c :: rest) c) = false.
Proof.
  unfold trim, trimEnd, trimStart. intros H.
  destruct (skip_while is_whitespace (rev (skip_while is_whitespace s)))
    as [|d u] eqn:Hu; [discriminate|].
  pose proof (skip_while_stops _ _ Hu) as Hd.
  destruct (skip_while_split is_whitespace (rev (skip_while is_whitespace s)))
    as (p2 & H2 & _).
  rewrite Hu in H2. split.
  - apply (f_equal (@rev code_unit)) in H2. rewrite rev_involutive, rev_app_distr in H2.
    rewrite H in H2. simpl in H2.
    apply skip_while_stops with (s := s) (rest := rest ++ rev p2). exact H2.
  - rewrite <- H. simpl. rewrite last_last. exact Hd.
Qed.

Lemma trim_nil_iff (s : jsstring) : trim s = [] <-> all_whitespace s.
Proof.
  split.
  - intros H. destruct (trim_split s) as (p & q & Hs & Hp & Hq).
    rewrite H in Hs. rewrite Hs. apply Forall_app. split; assumption.
  - intros H. unfold trim, trimEnd, trimStart.
    assert (E : skip_while is_whitespace s = []) by (apply skip_while_nil_iff, H).
    rewrite E. reflexivity.
Qed.

(** X3. Every group key is the trimmed value of a row at the grouping
    column: it is not empty, it neither starts nor ends with whitespace, and
    the row's value is the key between two runs of whitespace. *)
Theorem group_keys_are_trimmed (col : jsstring) (rows : list Row) (k : jsstring) :
  In k (keys col rows) ->
  k <> []
  /\ (forall c rest,
        k = c :: rest ->
        is_whitespace c = false /\ is_whitespace (last k c) = false)
  /\ exists row value before after,
      In row rows
      /\ get row col = Some value
      /\ value = before ++ k ++ after
      /\ all_whitespace before /\ all_whitespace after.
Proof.
  intros Hk. apply keys_In in Hk. destruct Hk as (row & Hrow & Hk).
  apply groupNameOf_iff in Hk. destruct Hk as (value & Hv & -> & Hne).
  split; [exact Hne|]. split.
  - intros c rest E. rewrite E. apply trim_ends with (s := value). exact E.
  - destruct (trim_split value) as (p & q & Hs & Hp & Hq).
    exists row, value, p, q. auto.
Qed.

Lemma group_keys_are_trimmed_witness :
  lit "7" <> []
  /\ exists row value before after,
      In row mixed_keys
      /\ get row operadora = Some value
      /\ value = before ++ lit "7" ++ after
      /\ all_whitespace before /\ all_whitespace after.
Proof.
  destruct (@group_keys_are_trimmed operadora mixed_keys (lit "7")) as (H1 & _ & H3).
  - right. left. reflexivity.
  - split; assumption.
Defined.

(** X4. A row is skipped by the grouping exactly when it has no value at
    the grouping column or when that value holds nothing but whitespace
    (the empty value included); the dropped rows are those rows. *)
Theorem rows_dropped_iff (col : jsstring) (rows : list Row) (row : Row) :
  (groupNameOf col row = None <->
   get row col = None
   \/ exists value, get row col = Some value /\ all_whitespace value)
  /\ (In row (dropped col rows) <->
      In row rows
      /\ (get row col = None
          \/ exists value, get row col = Some value /\ all_whitespace value)).
Proof.
  assert (H : groupNameOf col row = None <->
              get row col = None
              \/ exists value, get row col = Some value /\ all_whitespace value).
  { unfold groupNameOf, truthy. destruct (get row col) as [value|].
    - split.
      + intros H. right. exists value. split; [reflexivity|]. apply trim_nil_iff.
        destruct (trim value); [reflexivity | discriminate].
      + intros [H|(v & [= <-] & Hv)]; [discriminate|].
        apply trim_nil_iff in Hv. rewrite Hv. reflexivity.
    - split; [left; reflexivity | reflexivity]. }
  split; [exact H|].
  unfold dropped. rewrite filter_In, <- H.
  destruct (groupNameOf col row); simpl; split; intros [H1 H2]; split;
    try assumption; try reflexivity; discriminate.
Qed.

(** X7. Characters outside the sanitizer's class leave no trace: a key and
    the key without them get the same file name, so distinct keys can get
    the same name. *)
Theorem sanitizeFilename_ignores_removed (name : jsstring) :
  sanitizeFilename name = sanitizeFilename (filter in_kept_class name)
  /\ forall before after c,
      name = before ++ c :: after ->
      in_kept_class c = false ->
      sanitizeFilename name = sanitizeFilename (before ++ after).
Proof.
  split.
  - rewrite !sanitizeFilename_unfold, filter_filter_same. reflexivity.
  - intros before after c -> Hc. rewrite !sanitizeFilename_unfold, !filter_app.
    simpl. rewrite Hc. reflexivity.
Qed.

Lemma replace_runs_from_length (b : bool) (s : jsstring) :
  (List.length (replace_runs_from is_whitespace (lit "_") b s) <= List.length s)%nat.
Proof.
  revert b. induction s as [|c s IH]; intros b; simpl; [lia|].
  destruct (is_whitespace c).
  - destruct b; simpl; [specialize (IH true) | specialize (IH true)]; lia.
  - simpl. specialize (IH false). lia.
Qed.

(** X8. The [trim] of line 36 never removes anything, because the second
    replacement has already turned every whitespace into an underscore: a
    key that starts with whitespace gets a name that starts with an
    underscore.  The name is never longer than the key and the extension. *)
Theorem sanitizeFilename_trim_idle (name : jsstring) :
  trim (replace_runs is_whitespace (lit "_")
          (replace_each (fun c => negb (in_kept_class c)) (lit "") name))
  = replace_runs is_whitespace (lit "_")
      (replace_each (fun c => negb (in_kept_class c)) (lit "") name)
  /\ (forall c rest,
        name = c :: rest -> is_whitespace c = true ->
        exists tail, sanitizeFilename name = underscore :: tail)
  /\ (List.length (sanitizeFilename name) <= List.length name + 4)%nat.
Proof.
  split; [apply trim_no_whitespace, replace_runs_from_no_whitespace|]. split.
  - intros c rest -> Hc. rewrite sanitizeFilename_unfold. simpl.
    assert (Hk : in_kept_class c = true).
    { unfold in_kept_class. rewrite Hc. apply orb_true_iff. left.
      apply orb_true_iff. right. reflexivity. }
    rewrite Hk. unfold replace_runs. simpl. rewrite Hc. simpl. eexists. reflexivity.
  - rewrite sanitizeFilename_unfold, length_app. simpl.
    pose proof (replace_runs_from_length false (filter in_kept_class name)).
    pose proof (filter_length_le in_kept_class name). unfold replace_runs. lia.
Qed.

End TrimFacts.

(* ===================================================================== *)
(** * More on the generated files *)
(* ===================================================================== *)

Section FilesFacts.

Import JsString Js Csv App Spec Runs.

Context {ext : Collaborators}.

Lemma Object_entries_without_index {A} (o : list (jsstring * A)) :
  Forall (fun entry => array_index (fst entry) = None) o -> Object_entries o = o.
Proof.
  intros H.
  assert (Hi : index_properties o = []).
  { unfold index_properties. induction H as [|e o He _ IH]; simpl; [reflexivity|].
    rewrite He. exact IH. }
  assert (Hs : string_properties o = o).
  { unfold string_properties. induction H as [|e o He _ IH]; simpl; [reflexivity|].
    rewrite He. simpl. f_equal. apply IH.
    unfold index_properties in Hi. simpl in Hi. rewrite He in Hi. exact Hi. }
  unfold Object_entries. rewrite Hi, Hs. reflexivity.
Qed.

(** X5. When no key names an inherited property and no key is an array
    index, the files come in the order in which their keys first occur in
    the rows, each named after its key. *)
Theorem files_in_first_occurrence_order (col : jsstring) (rows : list Row) :
  no_inherited_key col rows ->
  Forall (fun k => array_index k = None) (keys col rows) ->
  exists groupedByValue,
    groupRows col rows = Return groupedByValue
    /\ List.map fst (Object_entries groupedByValue) = first_occurrences (keys col rows)
    /\ List.map filename (generateFiles groupedByValue)
       = List.map sanitizeFilename (first_occurrences (keys col rows))
    /\ List.map content (generateFiles groupedByValue)
       = List.map (fun k => Papa_unparse (filter (has_key col k) rows))
                  (first_occurrences (keys col rows)).
Proof.
  intros Hok Hidx. exists (grouped col rows).
  split; [apply groupRows_closed_form, Hok|].
  assert (E : Object_entries (grouped col rows) = grouped col rows).
  { apply Object_entries_without_index. apply Forall_forall. intros [k g] Hin.
    apply grouped_In in Hin. simpl.
    exact (proj1 (Forall_forall _ _) Hidx k (proj1 Hin)). }
  unfold generateFiles. rewrite E, grouped_keys. unfold grouped.
  rewrite !map_map. simpl. repeat split.
Qed.

Lemma NoDup_map_injective {A B} (f : A -> B) (l : list A) (a b : A) :
  NoDup (List.map f l) -> In a l -> In b l -> f a = f b -> a = b.
Proof.
  induction l as [|x l IH]; simpl; [contradiction|].
  intros Hn Ha Hb E. inversion Hn as [|? ? Hx Hl]; subst.
  destruct Ha as [->|Ha], Hb as [->|Hb].
  - reflexivity.
  - exfalso. apply Hx. rewrite E. apply in_map, Hb.
  - exfalso. apply Hx. rewrite <- E. apply in_map, Ha.
  - apply IH; assumption.
Qed.

(** X6. There is one generated file for each distinct key, named after it,
    and nothing looks for equal names: when two distinct keys get the same
    sanitized name, two files of that name are generated. *)
Theorem generateFiles_one_per_key (col : jsstring) (rows : list Row) :
  no_inherited_key col rows ->
  exists groupedByValue,
    groupRows col rows = Return groupedByValue
    /\ List.length (generateFiles groupedByValue)
       = List.length (first_occurrences (keys col rows))
    /\ Permutation (List.map filename (generateFiles groupedByValue))
                   (List.map sanitizeFilename (first_occurrences (keys col rows)))
    /\ (forall k1 k2,
          In k1 (keys col rows) -> In k2 (keys col rows) -> k1 <> k2 ->
          sanitizeFilename k1 = sanitizeFilename k2 ->
          ~ NoDup (List.map filename (generateFiles groupedByValue))).
Proof.
  intros Hok. exists (grouped col rows).
  split; [apply groupRows_closed_form, Hok|].
  assert (Hp : Permutation (List.map filename (generateFiles (grouped col rows)))
                 (List.map sanitizeFilename (first_occurrences (keys col rows)))).
  { unfold generateFiles. rewrite map_map. simpl.
    rewrite <- grouped_keys, map_map.
    apply Permutation_map, Object_entries_perm. }
  split; [|split; [exact Hp|]].
  - rewrite <- (length_map filename), (Permutation_length Hp), length_map. reflexivity.
  - intros k1 k2 H1 H2 Hne E Hn. apply Hne.
    apply (Permutation_NoDup Hp) in Hn.
    apply (NoDup_map_injective sanitizeFilename (first_occurrences (keys col rows)));
      try assumption; apply first_occurrences_In; assumption.
Qed.

End FilesFacts.

Section FilesExamples.

Import JsString Js Csv App Spec Runs.

(** Scenario 1: A.csv before B.csv. *)
Lemma files_in_first_occurrence_order_witness :
  exists groupedByValue,
    @groupRows header_only operadora scenario_1 = Return groupedByValue
    /\ List.map filename (@generateFiles header_only groupedByValue)
       = [lit "A.csv"; lit "B.csv"].
Proof.
  destruct (@files_in_first_occurrence_order header_only operadora scenario_1)
    as (g & Hg & _ & Hf & _).
  - repeat constructor; intros k H; vm_compute in H; injection H as <-; reflexivity.
  - repeat constructor.
  - exists g. split; [exact Hg | exact Hf].
Defined.

(** "Pizza & Cia" and "Pizza Cia!" are two groups and two files, both
    named Pizza_Cia.csv. *)
Lemma generateFiles_one_per_key_witness :
  exists groupedByValue,
    @groupRows header_only operadora colliding_rows = Return groupedByValue
    /\ List.length (@generateFiles header_only groupedByValue) = 2%nat
    /\ ~ NoDup (List.map filename (@generateFiles header_only groupedByValue)).
Proof.
  destruct (@generateFiles_one_per_key header_only operadora colliding_rows)
    as (g & Hg & Hl & _ & Hc).
  - repeat constructor; intros k H; vm_compute in H; injection H as <-; reflexivity.
  - exists g. split; [exact Hg|]. split; [exact Hl|].
    apply (Hc (lit "Pizza & Cia") (lit "Pizza Cia!")).
    + left. reflexivity.
    + right. left. reflexivity.
    + discriminate.
    + reflexivity.
Defined.

End FilesExamples.

(* ===================================================================== *)
(** * More on the runs of the handlers *)
(* ===================================================================== *)

Section RunFacts.

Import JsString Js Csv App Spec Runs.

Context {ext : Collaborators}.

Lemma splitResults_success (results : ParseResult) (col : jsstring) :
  errors results = [] \/ data results <> [] ->
  findGroupingColumn (data results) = Return (Some col) ->
  no_inherited_key col (data results) ->
  snd (splitResults results []) = Return (generateFiles (grouped col (data results))).
Proof.
  intros He Hc Hok.
  assert (Hg : checkErrors results [] = ([], Return tt)).
  { unfold checkErrors. destruct He as [He|He]; [rewrite He; reflexivity|].
    destruct (errors results); [reflexivity|].
    destruct (data results); [contradiction | reflexivity]. }
  unfold splitResults, bind. rewrite Hg.
  rewrite resolveGroupingColumn_found with (name := col) by exact Hc.
  unfold lift. rewrite groupRows_closed_form by exact Hok. reflexivity.
Qed.

Lemma parseWithFallback_header_missing (file : File) (primary : ParseResult) :
  readAndParse file UTF_8 = Return primary ->
  no_candidate_header (data primary) ->
  parseWithFallback file [] = ([UTF_8; ISO_8859_1], readAndParse file ISO_8859_1).
Proof.
  intros Hp Hn. destruct (shadows_or_not (data primary)) as [Hs|Hs].
  - unfold parseWithFallback, try_catch, primaryAttempt, bind, parseWithEncoding, lift.
    simpl. rewrite Hp, (findGroupingColumn_shadowed Hs). reflexivity.
  - rewrite (parseWithFallback_plain _ Hp Hs).
    apply header_guard_iff in Hn. rewrite Hn. reflexivity.
Qed.

Lemma parseWithFallback_rejected (file : File) (e : Thrown) :
  readAndParse file UTF_8 = Throw e ->
  parseWithFallback file [] = ([UTF_8; ISO_8859_1], readAndParse file ISO_8859_1).
Proof.
  intros Hp.
  unfold parseWithFallback, try_catch, primaryAttempt, bind, parseWithEncoding, throw_if.
  simpl. rewrite Hp. reflexivity.
Qed.

Lemma splitFile_rejected (file : File) (e : Thrown) :
  snd (parseWithFallback file []) = Throw e -> snd (splitFile file []) = Throw e.
Proof.
  intros H. unfold splitFile, bind.
  destruct (parseWithFallback file []) as [log o]. simpl in H. subst o. reflexivity.
Qed.

(** X9. A run over a selected file always settles: the loading flag is
    down, the selection and the zipping flag are as before, and either the
    files of the split are the generated files and there is no error, or
    the message of what was thrown is the error and there is no generated
    file.  Neither an earlier error nor earlier files survive, and nothing
    else of the earlier state matters. *)
Theorem processCsvFile_settles (st : AppState) (file : File) :
  sourceFile st = Some file ->
  isLoading (processCsvFile st) = false
  /\ sourceFile (processCsvFile st) = Some file
  /\ isZipping (processCsvFile st) = isZipping st
  /\ ((exists files,
          snd (splitFile file []) = Return files
          /\ error (processCsvFile st) = None
          /\ generatedFiles (processCsvFile st) = files)
      \/ (exists e,
             snd (splitFile file []) = Throw e
             /\ error (processCsvFile st) = Some (errorMessageOf e)
             /\ generatedFiles (processCsvFile st) = []))
  /\ (forall st',
        sourceFile st' = sourceFile st -> isZipping st' = isZipping st ->
        processCsvFile st' = processCsvFile st).
Proof.
  intros Hf. unfold processCsvFile. rewrite Hf.
  destruct (snd (splitFile file [])) as [files|e] eqn:E; simpl.
  - repeat split; [exact Hf | left; exists files; repeat split |].
    intros st' Hs Hz. rewrite Hs, E. unfold setIsLoading, setGeneratedFiles, setError.
    simpl. rewrite Hs, Hz, Hf. reflexivity.
  - repeat split; [exact Hf | right; exists e; repeat split |].
    intros st' Hs Hz. rewrite Hs, E. unfold setIsLoading, setGeneratedFiles, setError.
    simpl. rewrite Hs, Hz, Hf. reflexivity.
Qed.

(** X10. Without a selected file the run reads nothing and only reports
    that a file must be selected.  That is the case after [clearFile], which
    also empties the list of generated files, and after the selection of a
    file that is not taken as CSV, where the files generated earlier stay
    listed. *)
Theorem processCsvFile_without_file (st : AppState) (file : File) :
  (sourceFile st = None ->
   error (processCsvFile st) = Some (lit "Please select a file to process.")
   /\ generatedFiles (processCsvFile st) = generatedFiles st
   /\ isLoading (processCsvFile st) = isLoading st
   /\ isZipping (processCsvFile st) = isZipping st)
  /\ (error (processCsvFile (clearFile st)) = Some (lit "Please select a file to process.")
      /\ generatedFiles (processCsvFile (clearFile st)) = []
      /\ sourceFile (processCsvFile (clearFile st)) = None)
  /\ (acceptedAsCsv file = false ->
      error (processCsvFile (handleFileSelect file st))
      = Some (lit "Please select a file to process.")
      /\ generatedFiles (processCsvFile (handleFileSelect file st)) = generatedFiles st
      /\ sourceFile (processCsvFile (handleFileSelect file st)) = None).
Proof.
  split; [|split].
  - intros H. unfold processCsvFile. rewrite H. repeat split.
  - repeat split.
  - unfold acceptedAsCsv, handleFileSelect. intros H. apply negb_false_iff in H.
    rewrite H. repeat split.
Qed.

(** X11. When the chosen parse result passes the error gate,
    [findGroupingColumn] returns a column for it (so its first row owns a
    candidate and does not hide [hasOwnProperty]) and no row names an
    inherited property, the run succeeds: no error, the loading flag down,
    and one generated file for each distinct key of the chosen rows. *)
Theorem processCsvFile_success (st : AppState) (file : File) (results : ParseResult)
        (col : jsstring) :
  sourceFile st = Some file ->
  snd (parseWithFallback file []) = Return results ->
  errors results = [] \/ data results <> [] ->
  findGroupingColumn (data results) = Return (Some col) ->
  no_inherited_key col (data results) ->
  error (processCsvFile st) = None
  /\ generatedFiles (processCsvFile st) = generateFiles (grouped col (data results))
  /\ isLoading (processCsvFile st) = false
  /\ List.length (generatedFiles (processCsvFile st))
     = List.length (first_occurrences (keys col (data results))).
Proof.
  intros Hf Hr He Hc Hok.
  assert (E : snd (splitFile file []) = Return (generateFiles (grouped col (data results)))).
  { rewrite splitFile_chosen with (results := results) by exact Hr.
    apply splitResults_success; assumption. }
  unfold processCsvFile. rewrite Hf, E. simpl. repeat split.
  unfold generateFiles. rewrite length_map.
  rewrite (Permutation_length (Object_entries_perm (grouped col (data results)))).
  unfold grouped. rewrite length_map. reflexivity.
Qed.

(** X12. What the reader or the parser throws on the UTF-8 reading is
    never shown: when both readings are rejected, the error is the message
    of the second rejection, "An unknown error occurred." when that is not
    an [Error].  A file whose reading never gives a string ends the run
    with "Could not read file content.". *)
Theorem processCsvFile_read_failures (st : AppState) (file : File) :
  sourceFile st = Some file ->
  (forall e1 e2,
      readAndParse file UTF_8 = Throw e1 ->
      readAndParse file ISO_8859_1 = Throw e2 ->
      error (processCsvFile st) = Some (errorMessageOf e2)
      /\ generatedFiles (processCsvFile st) = [])
  /\ (forall e1,
        readAndParse file UTF_8 = Throw e1 ->
        readAndParse file ISO_8859_1 = Throw OtherValue ->
        error (processCsvFile st) = Some (lit "An unknown error occurred."))
  /\ ((forall encoding, FileReader_readAsText file encoding = Return None) ->
      error (processCsvFile st) = Some (lit "Could not read file content.")
      /\ generatedFiles (processCsvFile st) = []).
Proof.
  intros Hf.
  assert (H : forall e1 e2,
             readAndParse file UTF_8 = Throw e1 ->
             readAndParse file ISO_8859_1 = Throw e2 ->
             error (processCsvFile st) = Some (errorMessageOf e2)
             /\ generatedFiles (processCsvFile st) = []).
  { intros e1 e2 H1 H2.
    assert (E : snd (splitFile file []) = Throw e2).
    { apply splitFile_rejected. rewrite parseWithFallback_rejected with (e := e1) by exact H1.
      exact H2. }
    unfold processCsvFile. rewrite Hf, E. split; reflexivity. }
  split; [exact H|]. split.
  - intros e1 H1 H2. apply (H e1 OtherValue H1 H2).
  - intros Hn.
    apply (H (ErrorObject (lit "Could not read file content."))
             (ErrorObject (lit "Could not read file content.")));
      unfold readAndParse; rewrite Hn; reflexivity.
Qed.

(** X13. Whatever the archiver does, [downloadAllAsZip] leaves the
    generated files, the selected file and the loading flag as they are.
    With no generated file it changes nothing at all; otherwise the zipping
    flag is down at the end, and after a successful archive the error is the
    one there was before: an earlier error is not cleared. *)
Theorem downloadAllAsZip_frame (st : AppState) :
  generatedFiles (downloadAllAsZip st) = generatedFiles st
  /\ sourceFile (downloadAllAsZip st) = sourceFile st
  /\ isLoading (downloadAllAsZip st) = isLoading st
  /\ (generatedFiles st = [] -> downloadAllAsZip st = st)
  /\ (generatedFiles st <> [] -> isZipping (downloadAllAsZip st) = false)
  /\ (forall done,
        JSZip_generate_and_save (generatedFiles st) = Return done ->
        error (downloadAllAsZip st) = error st).
Proof.
  unfold downloadAllAsZip.
  destruct (generatedFiles st) as [|f fs] eqn:E.
  - repeat split; try assumption; try reflexivity. intros H. contradiction.
  - simpl. rewrite E.
    destruct (JSZip_generate_and_save (f :: fs)) as [u|e]; simpl; rewrite ?E;
      repeat split; try reflexivity; intros; discriminate.
Qed.

(** X14. When the UTF-8 reading has rows but no candidate header in the
    first of them, the files are those of the ISO-8859-1 reading alone:
    if that reading passes the error gate, [findGroupingColumn] returns a
    column for it (its first row owns a candidate and does not hide
    [hasOwnProperty]) and no row names an inherited property, the run
    succeeds with one file for each of its keys. *)
Theorem processCsvFile_rescued_by_fallback (st : AppState) (file : File)
        (primary secondary : ParseResult) (col : jsstring) :
  sourceFile st = Some file ->
  readAndParse file UTF_8 = Return primary ->
  no_candidate_header (data primary) ->
  readAndParse file ISO_8859_1 = Return secondary ->
  errors secondary = [] \/ data secondary <> [] ->
  findGroupingColumn (data secondary) = Return (Some col) ->
  no_inherited_key col (data secondary) ->
  error (processCsvFile st) = None
  /\ generatedFiles (processCsvFile st) = generateFiles (grouped col (data secondary)).
Proof.
  intros Hf Hp Hn Hs He Hc Hok.
  assert (Hr : snd (parseWithFallback file []) = Return secondary).
  { rewrite parseWithFallback_header_missing with (primary := primary) by assumption.
    exact Hs. }
  assert (E : snd (splitFile file [])
              = Return (generateFiles (grouped col (data secondary)))).
  { rewrite splitFile_chosen with (results := secondary) by exact Hr.
    apply splitResults_success; assumption. }
  unfold processCsvFile. rewrite Hf, E. split; reflexivity.
Qed.

(** X15. After a run that failed, and after [clearFile], there is nothing
    to archive: [downloadAllAsZip] returns at once, the archiver is not
    called, and the state, with the error of the failed run, stays as it
    is. *)
Theorem downloadAllAsZip_after_failure (st : AppState) (file : File) (e : Thrown) :
  sourceFile st = Some file ->
  snd (splitFile file []) = Throw e ->
  downloadAllAsZip (processCsvFile st) = processCsvFile st
  /\ error (downloadAllAsZip (processCsvFile st)) = Some (errorMessageOf e)
  /\ downloadAllAsZip (clearFile st) = clearFile st.
Proof.
  intros Hf Hs. unfold processCsvFile. rewrite Hf, Hs. repeat split.
Qed.

End RunFacts.

Section RunExamples.

Import JsString Js Csv App Spec Runs.

(** A run over stale results and a stale error: scenario 1 replaces them. *)
Lemma processCsvFile_settles_witness :
  isLoading (@processCsvFile failing_archiver stale) = false
  /\ error (@processCsvFile failing_archiver stale) = None
  /\ List.map filename (generatedFiles (@processCsvFile failing_archiver stale))
     = [lit "A.csv"; lit "B.csv"].
Proof.
  destruct (@processCsvFile_settles failing_archiver stale planilha eq_refl)
    as (Hl & _ & _ & [(files & Hs & He & Hg)|(e & Hs & _)] & _).
  - split; [exact Hl|]. split; [exact He|]. rewrite Hg.
    vm_compute in Hs. injection Hs as <-. reflexivity.
  - vm_compute in Hs. discriminate Hs.
Defined.

(** Scenario 1 from the selection to the two files. *)
Lemma processCsvFile_success_witness :
  error (@processCsvFile failing_archiver (selected planilha)) = None
  /\ List.length (generatedFiles (@processCsvFile failing_archiver (selected planilha)))
     = 2%nat.
Proof.
  destruct (@processCsvFile_success failing_archiver (selected planilha) planilha
              {| data := scenario_1; errors := [] |} operadora)
    as (He & _ & _ & Hn).
  - reflexivity.
  - reflexivity.
  - left. reflexivity.
  - reflexivity.
  - repeat constructor; intros k H; vm_compute in H; injection H as <-; reflexivity.
  - split; [exact He | exact Hn].
Defined.

(** A file that cannot be read as text. *)
Lemma processCsvFile_read_failures_witness :
  error (@processCsvFile unreadable (selected planilha))
  = Some (lit "Could not read file content.")
  /\ generatedFiles (@processCsvFile unreadable (selected planilha)) = [].
Proof.
  apply (proj2 (proj2 (@processCsvFile_read_failures unreadable (selected planilha)
                         planilha eq_refl))).
  intros encoding. reflexivity.
Defined.

(** The header is misread as UTF-8 and read as ISO-8859-1: the files are
    those of scenario 1. *)
Lemma processCsvFile_rescued_by_fallback_witness :
  error (@processCsvFile rescued_by_latin1 (selected planilha)) = None
  /\ List.map filename (generatedFiles (@processCsvFile rescued_by_latin1 (selected planilha)))
     = [lit "A.csv"; lit "B.csv"].
Proof.
  destruct (@processCsvFile_rescued_by_fallback rescued_by_latin1 (selected planilha)
              planilha {| data := misread_rows; errors := [] |}
              {| data := scenario_1; errors := [] |} operadora)
    as (He & Hg).
  - reflexivity.
  - reflexivity.
  - eexists. eexists. split; [reflexivity|]. repeat constructor.
  - reflexivity.
  - left. reflexivity.
  - reflexivity.
  - repeat constructor; intros k H; vm_compute in H; injection H as <-; reflexivity.
  - split; [exact He|]. rewrite Hg. reflexivity.
Defined.

(** The archive button after the run over the unreadable file. *)
Lemma downloadAllAsZip_after_failure_witness :
  @downloadAllAsZip unreadable (@processCsvFile unreadable (selected planilha))
  = @processCsvFile unreadable (selected planilha)
  /\ error (@downloadAllAsZip unreadable (@processCsvFile unreadable (selected planilha)))
     = Some (lit "Could not read file content.").
Proof.
  destruct (@downloadAllAsZip_after_failure unreadable (selected planilha) planilha
              (ErrorObject (lit "Could not read file content.")) eq_refl eq_refl)
    as (H1 & H2 & _).
  split; [exact H1 | exact H2].
Defined.

End RunExamples.
